(** * labelme/shape.py: the annotation shapes, embedded and verified

    [Shape] (the spec's PolygonShape), [MultipoinstShape] (the spec's
    PointPromptShape) and [MaskShape.toPolygons] are translated from
    [src/labelme/shape.py].  Python objects become records, methods become
    functions from the object to a result and the object afterwards, and
    exceptions are results of type [res]. *)

From Stdlib Require Import QArith Qcanon.
From Stdlib Require Qcabs.
From stdpp Require Import base decidable option list strings numbers pretty.

Open Scope Z_scope.

(** ** Exceptions and results *)

Inductive exn : Type :=
  | ValueError (msg : string)
  | IndexError
  | OverflowError.

Inductive res (A : Type) : Type :=
  | Ok (a : A)
  | Raise (e : exn).
Arguments Ok {A} a.
Arguments Raise {A} e.

Definition res_bind {A B} (r : res A) (k : A → res B) : res B :=
  match r with
  | Ok a => k a
  | Raise e => Raise e
  end.

Definition res_map {A B} (f : A → B) (r : res A) : res B :=
  res_bind r (λ a, Ok (f a)).

(** ** Python lists indexed by a (possibly negative) integer *)

Module PyList.
Section PyList.
Context {A : Type}.

(** The position an index denotes: [i] itself when [0 <= i < len], counted
    from the end when [-len <= i < 0], and no position otherwise. *)
Definition norm_index (l : list A) (i : Z) : option nat :=
  let n := Z.of_nat (length l) in
  if decide (0 ≤ i < n) then Some (Z.to_nat i)
  else if decide (- n ≤ i < 0) then Some (Z.to_nat (n + i))
  else None.

(** [l[i]] *)
Definition getitem (l : list A) (i : Z) : res A :=
  match norm_index l i with
  | Some k => match l !! k with Some x => Ok x | None => Raise IndexError end
  | None => Raise IndexError
  end.

(** [l[i] = v] *)
Definition setitem (l : list A) (i : Z) (v : A) : res (list A) :=
  match norm_index l i with
  | Some k => Ok (<[k:=v]> l)
  | None => Raise IndexError
  end.

(** The integers that fit the C type [Py_ssize_t] (a 64-bit build). An
    index given to a list method is converted to it first, and one that
    does not fit raises [OverflowError]; a subscript [l[i]] that does not
    fit raises [IndexError] like any other index out of range. *)
Definition ssize_max : Z := 2 ^ 63 - 1.
Definition ssize_min : Z := - 2 ^ 63.

Definition in_ssize_t (i : Z) : bool :=
  bool_decide (ssize_min ≤ i ≤ ssize_max).

(** [l.pop(i)]: the element and the list without it. *)
Definition pop_at (l : list A) (i : Z) : res (A * list A) :=
  if negb (in_ssize_t i) then Raise OverflowError else
  match norm_index l i with
  | Some k =>
      match l !! k with
      | Some x => Ok (x, delete k l)
      | None => Raise IndexError
      end
  | None => Raise IndexError
  end.

(** [l.pop()] *)
Definition pop (l : list A) : res (A * list A) :=
  match list.last l with
  | Some x => Ok (x, removelast l)
  | None => Raise IndexError
  end.

(** Where [l.insert(i, v)] puts [v] once [i] fits [Py_ssize_t]: a negative
    index counts from the end, and the position is clamped to [0 .. len]. *)
Definition insert_at (l : list A) (i : Z) (v : A) : list A :=
  let n := Z.of_nat (length l) in
  let k := if decide (i < 0) then Z.max 0 (n + i) else Z.min i n in
  take (Z.to_nat k) l ++ v :: drop (Z.to_nat k) l.

(** [l.insert(i, v)] *)
Definition insert (l : list A) (i : Z) (v : A) : res (list A) :=
  if negb (in_ssize_t i) then Raise OverflowError else Ok (insert_at l i v).

(** *** Slices

    [slice(start, stop, step).indices(len)]: a missing step is 1, a step
    of 0 is an error; bounds count from the end when negative and are
    clamped, to [0 .. len] for a positive step and to [-1 .. len - 1] for a
    negative one. *)
Definition slice_indices (len : Z) (start stop step : option Z)
  : res (Z * Z * Z) :=
  let step := match step with None => 1 | Some s => s end in
  if bool_decide (step = 0) then Raise (ValueError "slice step cannot be zero")
  else
    let lower := if bool_decide (step < 0) then -1 else 0 in
    let upper := if bool_decide (step < 0) then len - 1 else len in
    let adjust (v : Z) :=
      if bool_decide (v < 0) then Z.max (v + len) lower else Z.min v upper in
    let start := match start with
                 | None => if bool_decide (step < 0) then upper else lower
                 | Some v => adjust v
                 end in
    let stop := match stop with
                | None => if bool_decide (step < 0) then lower else upper
                | Some v => adjust v
                end in
    Ok (start, stop, step).

(** The number of positions [start, start + step, ...] before [stop]. *)
Definition slice_length (start stop step : Z) : Z :=
  if bool_decide (step < 0) then
    if bool_decide (stop < start) then (start - stop - 1) `div` (- step) + 1
    else 0
  else
    if bool_decide (start < stop) then (stop - start - 1) `div` step + 1
    else 0.

(** [l[start:stop:step] = values]. With step 1 the slice is replaced by
    [values], whatever their number; with another step the values must be
    as many as the positions of the slice, which they then fill. *)
Definition setslice (l : list A) (start stop step : option Z)
    (values : list A) : res (list A) :=
  res_bind (slice_indices (Z.of_nat (length l)) start stop step) (λ sss,
    let '(start, stop, step) := sss in
    if bool_decide (step = 1) then
      let stop := Z.max start stop in
      Ok (take (Z.to_nat start) l ++ values ++ drop (Z.to_nat stop) l)
    else
      let n := slice_length start stop step in
      if negb (bool_decide (Z.of_nat (length values) = n)) then
        Raise (ValueError
                 ("attempt to assign sequence of size "
                  +:+ pretty (length values)
                  +:+ " to extended slice of size " +:+ pretty n))
      else
        Ok (foldl (λ acc kv, <[Z.to_nat (start + Z.of_nat kv.1 * step) := kv.2]> acc)
                  l (imap pair values))).
End PyList.
End PyList.

(** ** Points

    [QPointF] comes from Qt: the shapes only compare points ([==], [!=])
    and translate them ([+]). Qt's [==] is not identity: it takes two
    points whose coordinates differ by a rounding error for equal. What the
    shapes rely on is [point_eqb], whatever it decides, and that a point
    with finite coordinates equals itself. *)

Class PointOps (point : Type) := {
  point_eqb : point → point → bool;
  padd : point → point → point;
  point_eqb_refl : ∀ p, point_eqb p p = true;
}.

(** [ps and p == ps[0]]: the point [p] is taken for the first of [ps]. *)
Definition is_first {point : Type} `{PointOps point}
    (p : point) (ps : list point) : bool :=
  match ps with
  | p0 :: _ => point_eqb p p0
  | [] => false
  end.

(** [QPointF(x, y)]: float coordinates, idealised as rationals. *)
Definition qpoint : Type := Qc * Qc.

(** An integer as a float. *)
Definition Z2Qc (z : Z) : Qc := Q2Qc (inject_Z z).

(** Qt's comparison of [QPointF] (qpoint.h, qglobal.h), coordinate by
    coordinate: next to a coordinate that is 0 the other one must be within
    [10^-12] of it, and two coordinates other than 0 must differ by at most
    [10^-12] times the smaller of their absolute values. *)
Module Qt.
Definition qFuzzyIsNull (d : Qc) : bool :=
  bool_decide (Qcabs.Qcabs d * Z2Qc (10 ^ 12) ≤ Z2Qc 1)%Qc.

Definition qMin (a b : Qc) : Qc := if bool_decide (a < b)%Qc then a else b.

Definition qFuzzyCompare (p1 p2 : Qc) : bool :=
  bool_decide (Qcabs.Qcabs (p1 - p2) * Z2Qc (10 ^ 12)
               ≤ qMin (Qcabs.Qcabs p1) (Qcabs.Qcabs p2))%Qc.

Definition coordinate_eqb (a b : Qc) : bool :=
  if bool_decide (a = Z2Qc 0) || bool_decide (b = Z2Qc 0)
  then qFuzzyIsNull (a - b)
  else qFuzzyCompare a b.

Definition QPointF_eqb (p q : qpoint) : bool :=
  coordinate_eqb p.1 q.1 && coordinate_eqb p.2 q.2.

End Qt.

#[global] Instance qpoint_ops : PointOps qpoint.
Proof.
  refine {| point_eqb := Qt.QPointF_eqb;
            padd := λ p q, ((p.1 + q.1)%Qc, (p.2 + q.2)%Qc);
            point_eqb_refl := _ |}.
  assert (Hcoord : ∀ a : Qc, Qt.coordinate_eqb a a = true).
  { intros a. unfold Qt.coordinate_eqb, Qt.qFuzzyIsNull, Qt.qFuzzyCompare.
    assert (Hzero : (Qcabs.Qcabs (a - a) * Z2Qc (10 ^ 12))%Qc = Z2Qc 0).
    { unfold Qcminus. rewrite Qcplus_opp_r. apply Qc_is_canon. reflexivity. }
    rewrite Hzero. destruct (_ || _).
    - apply bool_decide_eq_true_2. apply (bool_decide_unpack _). reflexivity.
    - apply bool_decide_eq_true_2. unfold Qt.qMin.
      destruct (bool_decide _); apply Qcabs.Qcabs_nonneg. }
  intros p. unfold Qt.QPointF_eqb. by rewrite !Hcoord.
Defined.

(** ** labelme.utils *)

Module Utils.
(** Modelled from the spec: [labelme.utils.distancetoline], the spec's
    distanceToSegment, is missing from the sources. The spec has it return
    the shortest distance from the point to the finite segment, the segment
    of length zero included. That distance is a square root; its square is
    rational, and is what is computed here: the squared distance from [p] to
    the point of the segment nearest to it. *)
Definition sq_distancetoline (p : qpoint) (line : qpoint * qpoint) : Qc :=
  let a := line.1 in
  let b := line.2 in
  let dx := (b.1 - a.1)%Qc in
  let dy := (b.2 - a.2)%Qc in
  let len2 := (dx * dx + dy * dy)%Qc in
  let sq (u v : Qc) := (u * u + v * v)%Qc in
  if bool_decide (len2 = Z2Qc 0) then sq (p.1 - a.1)%Qc (p.2 - a.2)%Qc
  else
    let t := (((p.1 - a.1) * dx + (p.2 - a.2) * dy) / len2)%Qc in
    let t := if bool_decide (t < Z2Qc 0)%Qc then Z2Qc 0
             else if bool_decide (Z2Qc 1 < t)%Qc then Z2Qc 1 else t in
    sq (p.1 - (a.1 + t * dx))%Qc (p.2 - (a.2 + t * dy))%Qc.

(** [d] is the distance from [p] to the segment [line]. *)
Definition is_distancetoline (d : Qc) (p : qpoint) (line : qpoint * qpoint) : Prop :=
  (Z2Qc 0 ≤ d)%Qc ∧ (d * d)%Qc = sq_distancetoline p line.
End Utils.

(** What [logger.warning] receives in [removePoint]. *)
Inductive warning : Type :=
  | CannotRemoveKind (shape_type : string)
  | CannotRemoveLen (shape_type : string) (len_points : nat).

(** ** class Shape *)

Module Shape.

Definition P_SQUARE : Z := 0.
Definition P_ROUND : Z := 1.
Definition MOVE_VERTEX : Z := 0.
Definition NEAR_VERTEX : Z := 1.

(** The list the [shape_type] setter tests membership in. *)
Definition shape_types : list string :=
  ["polygon"; "rectangle"; "point"; "line"; "circle"; "linestrip"]%string.

Definition color : Type := Z * Z * Z * Z.

Record t (point : Type) : Type := mk {
  label : option string;
  group_id : option Z;
  points : list point;
  fill : bool;
  selected : bool;
  shape_type : string;
  flags : option (list (string * bool));
  description : option string;
  other_data : list (string * string);
  highlightIndex : option Z;
  highlightMode : Z;
  closed : bool;
  line_color : option color;
}.
Arguments mk {point}.
Arguments label {point}.
Arguments group_id {point}.
Arguments points {point}.
Arguments fill {point}.
Arguments selected {point}.
Arguments shape_type {point}.
Arguments flags {point}.
Arguments description {point}.
Arguments other_data {point}.
Arguments highlightIndex {point}.
Arguments highlightMode {point}.
Arguments closed {point}.
Arguments line_color {point}.

Section Methods.
Context {point : Type} `{PointOps point}.

Definition with_points (self : t point) (ps : list point) : t point :=
  mk (label self) (group_id self) ps (fill self) (selected self)
     (shape_type self) (flags self) (description self) (other_data self)
     (highlightIndex self) (highlightMode self) (closed self)
     (line_color self).

Definition with_shape_type (self : t point) (k : string) : t point :=
  mk (label self) (group_id self) (points self) (fill self) (selected self)
     k (flags self) (description self) (other_data self)
     (highlightIndex self) (highlightMode self) (closed self)
     (line_color self).

Definition with_closed (self : t point) (c : bool) : t point :=
  mk (label self) (group_id self) (points self) (fill self) (selected self)
     (shape_type self) (flags self) (description self) (other_data self)
     (highlightIndex self) (highlightMode self) c (line_color self).

Definition with_highlight (self : t point) (i : option Z) (m : Z) : t point :=
  mk (label self) (group_id self) (points self) (fill self) (selected self)
     (shape_type self) (flags self) (description self) (other_data self)
     i m (closed self) (line_color self).

(** The check of the [shape_type] setter: [None] stands for ["polygon"],
    a value outside the list raises [ValueError]. *)
Definition check_shape_type (value : option string) : res string :=
  let value := match value with None => "polygon"%string | Some v => v end in
  if negb (bool_decide (value ∈ shape_types))
  then Raise (ValueError ("Unexpected shape_type: " +:+ value))
  else Ok value.

(** [self.shape_type = value] *)
Definition set_shape_type (value : option string) (self : t point)
  : res unit * t point :=
  match check_shape_type value with
  | Raise e => (Raise e, self)
  | Ok v => (Ok tt, with_shape_type self v)
  end.

(** [Shape(label, line_color, shape_type, flags, group_id, description)].
    The setter runs at the first assignment of [shape_type]; when it
    raises, no object is returned. *)
Definition init (label : option string) (line_color : option color)
    (shape_type : option string) (flags : option (list (string * bool)))
    (group_id : option Z) (description : option string) : res (t point) :=
  res_bind (check_shape_type shape_type) (λ k,
    let self := mk label group_id [] false false k flags description []
                  None NEAR_VERTEX false line_color in
    res_bind (check_shape_type shape_type) (λ k', Ok (with_shape_type self k'))).

Definition close (self : t point) : t point := with_closed self true.

Definition addPoint (p : point) (self : t point) : t point :=
  match points self with
  | p0 :: _ =>
      if point_eqb p p0 then close self
      else with_points self (points self ++ [p])
  | [] => with_points self (points self ++ [p])
  end.

Definition canAddPoint (self : t point) : bool :=
  bool_decide (shape_type self ∈ ["polygon"; "linestrip"]%string).

Definition popPoint (self : t point) : option point * t point :=
  match points self with
  | _ :: _ =>
      match PyList.pop (points self) with
      | Ok (p, ps) => (Some p, with_points self ps)
      | Raise _ => (None, self)
      end
  | [] => (None, self)
  end.

(** [insertPoint] returns nothing; the result is [Ok tt] or the
    [OverflowError] of [list.insert]. *)
Definition insertPoint (i : Z) (p : point) (self : t point)
  : res unit * t point :=
  match PyList.insert (points self) i p with
  | Ok ps => (Ok tt, with_points self ps)
  | Raise e => (Raise e, self)
  end.

(** [removePoint] returns nothing; the result is [Ok tt] or the
    [IndexError] or [OverflowError] of [list.pop], next to the object and
    the warnings. *)
Definition removePoint (i : Z) (self : t point)
  : res unit * t point * list warning :=
  if negb (canAddPoint self) then
    (Ok tt, self, [CannotRemoveKind (shape_type self)])
  else if bool_decide (shape_type self = "polygon"%string)
          && bool_decide (length (points self) ≤ 3)%nat then
    (Ok tt, self, [CannotRemoveLen (shape_type self) (length (points self))])
  else if bool_decide (shape_type self = "linestrip"%string)
          && bool_decide (length (points self) ≤ 2)%nat then
    (Ok tt, self, [CannotRemoveLen (shape_type self) (length (points self))])
  else
    match PyList.pop_at (points self) i with
    | Ok (_, ps) => (Ok tt, with_points self ps, [])
    | Raise e => (Raise e, self, [])
    end.

(** The states in which the spec has [removePoint] do nothing: a kind of
    fixed arity, or a point list at the minimum for the kind. *)
Definition refuses_removal (self : t point) : Prop :=
  canAddPoint self = false
  ∨ (shape_type self = "polygon"%string ∧ (length (points self) ≤ 3)%nat)
  ∨ (shape_type self = "linestrip"%string ∧ (length (points self) ≤ 2)%nat).

Definition isClosed (self : t point) : bool := closed self.

Definition setOpen (self : t point) : t point := with_closed self false.

Definition moveBy (offset : point) (self : t point) : t point :=
  with_points self ((λ p, padd p offset) <$> points self).

Definition moveVertexBy (i : Z) (offset : point) (self : t point)
  : res unit * t point :=
  match PyList.getitem (points self) i with
  | Raise e => (Raise e, self)
  | Ok p =>
      match PyList.setitem (points self) i (padd p offset) with
      | Raise e => (Raise e, self)
      | Ok ps => (Ok tt, with_points self ps)
      end
  end.

Definition highlightVertex (i : Z) (action : Z) (self : t point) : t point :=
  with_highlight self (Some i) action.

Definition highlightClear (self : t point) : t point :=
  with_highlight self None (highlightMode self).

(** [self[key] = value] for an integer [key] *)
Definition setitem (key : Z) (value : point) (self : t point)
  : res unit * t point :=
  match PyList.setitem (points self) key value with
  | Raise e => (Raise e, self)
  | Ok ps => (Ok tt, with_points self ps)
  end.

(** [self[start:stop:step] = values], the same method with a slice for
    key and a list of points for value *)
Definition setslice (start stop step : option Z) (values : list point)
    (self : t point) : res unit * t point :=
  match PyList.setslice (points self) start stop step values with
  | Raise e => (Raise e, self)
  | Ok ps => (Ok tt, with_points self ps)
  end.

(** *** nearestEdge

    [labelme.utils.distancetoline] is not part of this file: it is a
    parameter.  Distances are floats: finite ones are rationals, and
    [float("inf")], the start of [min_distance], is [None]. *)
Section NearestEdge.
Variable distancetoline : point → point * point → Qc.

Definition lt_min (dist : Qc) (min_distance : option Qc) : bool :=
  match min_distance with
  | None => true
  | Some m => bool_decide (dist < m)%Qc
  end.

(** One turn of the loop body, for the index [i]. *)
Definition nearestEdge_body (self : t point) (pt : point) (epsilon : Qc)
    (st : option Qc * option Z) (i : Z) : res (option Qc * option Z) :=
  res_bind (PyList.getitem (points self) (i - 1)) (λ a,
  res_bind (PyList.getitem (points self) i) (λ b,
    let line := (a, b) in
    let dist := distancetoline pt line in
    if bool_decide (dist ≤ epsilon)%Qc && lt_min dist (fst st)
    then Ok (Some dist, Some i)
    else Ok st)).

Fixpoint nearestEdge_loop (self : t point) (pt : point) (epsilon : Qc)
    (range : list Z) (st : option Qc * option Z) : res (option Z) :=
  match range with
  | [] => Ok (snd st)
  | i :: range =>
      res_bind (nearestEdge_body self pt epsilon st i)
               (nearestEdge_loop self pt epsilon range)
  end.

Definition nearestEdge (pt : point) (epsilon : Qc) (self : t point)
  : res (option Z) :=
  nearestEdge_loop self pt epsilon
    (Z.of_nat <$> seq 0 (length (points self))) (None, None).

(** The edge with trailing index [i], in the spec's words: the segment
    from [points[i-1]], or from the last point when [i = 0], to
    [points[i]]. *)
Definition edge (self : t point) (i : nat) : option (point * point) :=
  b ← points self !! i;
  a ← (match i with O => list.last (points self) | S j => points self !! j end);
  Some (a, b).

Definition edge_distance (self : t point) (pt : point) (i : nat) : option Qc :=
  distancetoline pt <$> edge self i.

(** What the loop knows once the edges below [k] are seen: either none of
    them is within [epsilon], or it holds the first closest of those that
    are. *)
Definition scanned (self : t point) (pt : point) (epsilon : Qc) (k : nat)
    (st : option Qc * option Z) : Prop :=
  match st with
  | (None, None) =>
      ∀ j d, (j < k)%nat → edge_distance self pt j = Some d → ¬ (d ≤ epsilon)%Qc
  | (Some d, Some i) =>
      ∃ i0 : nat, i = Z.of_nat i0 ∧ (i0 < k)%nat
        ∧ edge_distance self pt i0 = Some d ∧ (d ≤ epsilon)%Qc
        ∧ (∀ j d', (j < k)%nat → edge_distance self pt j = Some d' →
                   (d' ≤ epsilon)%Qc → (d ≤ d')%Qc)
        ∧ (∀ j d', (j < i0)%nat → edge_distance self pt j = Some d' →
                   (d' ≤ epsilon)%Qc → (d < d')%Qc)
  | _ => False
  end.
End NearestEdge.

(** *** Operations as data, to speak of every operation at once *)
Inductive op : Type :=
  | AddPoint (p : point)
  | PopPoint
  | InsertPoint (i : Z) (p : point)
  | RemovePoint (i : Z)
  | MoveBy (offset : point)
  | MoveVertexBy (i : Z) (offset : point)
  | SetItem (key : Z) (value : point)
  | SetSlice (start stop step : option Z) (values : list point)
  | SetShapeType (value : option string)
  | Close
  | SetOpen
  | HighlightVertex (i : Z) (action : Z)
  | HighlightClear.

Definition exec (o : op) (self : t point) : t point :=
  match o with
  | AddPoint p => addPoint p self
  | PopPoint => snd (popPoint self)
  | InsertPoint i p => snd (insertPoint i p self)
  | RemovePoint i => snd (fst (removePoint i self))
  | MoveBy offset => moveBy offset self
  | MoveVertexBy i offset => snd (moveVertexBy i offset self)
  | SetItem key value => snd (setitem key value self)
  | SetSlice start stop step values =>
      snd (setslice start stop step values self)
  | SetShapeType value => snd (set_shape_type value self)
  | Close => close self
  | SetOpen => setOpen self
  | HighlightVertex i action => highlightVertex i action self
  | HighlightClear => highlightClear self
  end.

(** The operations that can make the point list longer. *)
Definition grows (o : op) : bool :=
  match o with
  | AddPoint _ | InsertPoint _ _ | SetSlice _ _ _ _ => true
  | _ => false
  end.
(** *** len, item access and nearestVertex *)

(** [len(self)] *)
Definition len (self : t point) : Z := Z.of_nat (length (points self)).

(** [self[key]] *)
Definition getitem (key : Z) (self : t point) : res point :=
  PyList.getitem (points self) key.

(** [enumerate(l)] *)
Definition enumerate {A : Type} (l : list A) : list (Z * A) :=
  imap (λ i a, (Z.of_nat i, a)) l.

(** [QPointF.__sub__] and [labelme.utils.distance] are not part of this
    file: they are parameters, the distance with rational values. *)
Section NearestVertex.
Variable psub : point → point → point.
Variable distance : point → Qc.

(** One turn of the loop body, for the pair [(i, p)]. *)
Definition nearestVertex_body (pt : point) (epsilon : Qc)
    (st : option Qc * option Z) (ip : Z * point) : option Qc * option Z :=
  let dist := distance (psub ip.2 pt) in
  if bool_decide (dist ≤ epsilon)%Qc && lt_min dist (fst st)
  then (Some dist, Some ip.1)
  else st.

Definition nearestVertex (pt : point) (epsilon : Qc) (self : t point)
  : option Z :=
  snd (foldl (nearestVertex_body pt epsilon) (None, None)
             (enumerate (points self))).
End NearestVertex.
End Methods.
End Shape.

(** ** class MultipoinstShape *)

Module MultipoinstShape.

Record t (point : Type) : Type := mk {
  points : list point;
  labels : list bool;
  selected : bool;
  other_data : list (string * string);
  closed : bool;
  shape_type : string;
}.
Arguments mk {point}.
Arguments points {point}.
Arguments labels {point}.
Arguments selected {point}.
Arguments other_data {point}.
Arguments closed {point}.
Arguments shape_type {point}.

Section Methods.
Context {point : Type} `{PointOps point}.

Definition init : t point := mk [] [] false [] false "multipoints".

Definition with_points (self : t point) (ps : list point) : t point :=
  mk ps (labels self) (selected self) (other_data self) (closed self)
     (shape_type self).

Definition with_labels (self : t point) (ls : list bool) : t point :=
  mk (points self) ls (selected self) (other_data self) (closed self)
     (shape_type self).

Definition addPoint (p : point) (is_positive : bool) (self : t point)
  : t point :=
  let append :=
    with_labels (with_points self (points self ++ [p]))
                (labels self ++ [is_positive]) in
  match points self with
  | [] => append
  | p0 :: _ => if negb (point_eqb p p0) then append else self
  end.

Definition canAddPoint (self : t point) : bool := true.

(** [self.labels.pop()] comes first and may raise on its own. *)
Definition popPoint (self : t point) : res (option point) * t point :=
  match points self with
  | [] => (Ok None, self)
  | _ :: _ =>
      match PyList.pop (labels self) with
      | Raise e => (Raise e, self)
      | Ok (_, ls) =>
          let self := with_labels self ls in
          match PyList.pop (points self) with
          | Raise e => (Raise e, self)
          | Ok (p, ps) => (Ok (Some p), with_points self ps)
          end
      end
  end.

Definition removePoint (i : Z) (self : t point)
  : res unit * t point * list warning :=
  if bool_decide (length (points self) ≤ 1)%nat then
    (Ok tt, self, [CannotRemoveLen (shape_type self) (length (points self))])
  else
    match PyList.pop_at (labels self) i with
    | Raise e => (Raise e, self, [])
    | Ok (_, ls) =>
        let self := with_labels self ls in
        match PyList.pop_at (points self) i with
        | Raise e => (Raise e, self, [])
        | Ok (_, ps) => (Ok tt, with_points self ps, [])
        end
    end.

Definition moveBy (offset : point) (self : t point) : t point :=
  with_points self ((λ p, padd p offset) <$> points self).

Definition moveVertexBy (i : Z) (offset : point) (self : t point)
  : res unit * t point :=
  match PyList.getitem (points self) i with
  | Raise e => (Raise e, self)
  | Ok p =>
      match PyList.setitem (points self) i (padd p offset) with
      | Raise e => (Raise e, self)
      | Ok ps => (Ok tt, with_points self ps)
      end
  end.

Inductive op : Type :=
  | AddPoint (p : point) (is_positive : bool)
  | PopPoint
  | RemovePoint (i : Z)
  | MoveBy (offset : point)
  | MoveVertexBy (i : Z) (offset : point).

(** The object after an operation; an exception leaves it as the
    operation left it when it raised. *)
Definition exec (self : t point) (o : op) : t point :=
  match o with
  | AddPoint p is_positive => addPoint p is_positive self
  | PopPoint => snd (popPoint self)
  | RemovePoint i => snd (fst (removePoint i self))
  | MoveBy offset => moveBy offset self
  | MoveVertexBy i offset => snd (moveVertexBy i offset self)
  end.

Definition run (ops : list op) (self : t point) : t point :=
  foldl exec self ops.

(** The invariant of the data model. *)
Definition aligned (self : t point) : Prop :=
  length (points self) = length (labels self).

(** The prompts as the spec describes them: one sequence of labelled
    points, [labels[i]] next to [points[i]]. *)
Definition prompts (self : t point) : list (point * bool) :=
  zip (points self) (labels self).

(** The same operations on the sequence of labelled points. *)
Definition exec_prompts (l : list (point * bool)) (o : op)
  : list (point * bool) :=
  match o with
  | AddPoint p is_positive =>
      match l with
      | [] => l ++ [(p, is_positive)]
      | (p0, _) :: _ =>
          if point_eqb p p0 then l else l ++ [(p, is_positive)]
      end
  | PopPoint => removelast l
  | RemovePoint i =>
      if bool_decide (length l ≤ 1)%nat then l
      else if negb (PyList.in_ssize_t i) then l
      else match PyList.norm_index l i with
           | Some k => delete k l
           | None => l
           end
  | MoveBy offset => (λ pl, (padd pl.1 offset, pl.2)) <$> l
  | MoveVertexBy i offset =>
      match PyList.norm_index l i with
      | Some k => alter (λ pl, (padd pl.1 offset, pl.2)) k l
      | None => l
      end
  end.
(** *** nearestVertex, with the same parameters as for [Shape] *)
Section NearestVertex.
Variable psub : point → point → point.
Variable distance : point → Qc.

Definition nearestVertex_body (pt : point) (epsilon : Qc)
    (st : option Qc * option Z) (ip : Z * point) : option Qc * option Z :=
  let dist := distance (psub ip.2 pt) in
  if bool_decide (dist ≤ epsilon)%Qc && Shape.lt_min dist (fst st)
  then (Some dist, Some ip.1)
  else st.

Definition nearestVertex (pt : point) (epsilon : Qc) (self : t point)
  : option Z :=
  snd (foldl (nearestVertex_body pt epsilon) (None, None)
             (Shape.enumerate (points self))).
End NearestVertex.

(** [QPainterPath(self.points[0])], then [lineTo] for the other points:
    the path as the points it runs through. *)
Definition makePath (self : t point) : res (list point) :=
  res_bind (PyList.getitem (points self) 0) (λ p0,
    Ok (p0 :: drop 1 (points self))).
End Methods.
End MultipoinstShape.

(** ** class MaskShape *)

Module MaskShape.

(** A contour of [cv2.findContours]: pixel coordinates. *)
Definition contour : Type := list (Z * Z).

(** A row [next, previous, first_child, parent] of the hierarchy. *)
Definition hrow : Type := Z * Z * Z * Z.

Record t : Type := mk {
  label : option string;
  group_id : option Z;
  flags : option (list (string * bool));
  description : option string;
  scale : Qc;
}.

(** [contour[:,0,:] / self.scale] *)
Definition descale (self : t) (c : contour) : list qpoint :=
  (λ xy, ((Z2Qc xy.1 / scale self)%Qc, (Z2Qc xy.2 / scale self)%Qc)) <$> c.

(** [np.concatenate([c, c[:1,:]], axis=0)] *)
Definition close_ring (c : list qpoint) : list qpoint := c ++ take 1 c.

(** [np.concatenate([contour[:2,:], child_contour, contour[1:,:]], axis=0)] *)
Definition splice (ring hole : list qpoint) : list qpoint :=
  take 2 ring ++ hole ++ drop 1 ring.

(** [len(child_contour) >= 10 / self.scale] *)
Definition long_enough (self : t) (c : contour) : bool :=
  bool_decide (Z2Qc 10 / scale self ≤ Z2Qc (Z.of_nat (length c)))%Qc.

(** A ring in the glossary's sense, the empty one included: a first point,
    more points, and the first point again. *)
Definition ringlike (ring : list qpoint) : Prop :=
  ring = [] ∨ ∃ p mid, ring = p :: mid ++ [p].

Section ToPolygons.
(** Qt's comparison and translation of [QPointF]. *)
Context {ops : PointOps qpoint}.

(** [cv2.approxPolyDP(contour, epsilon, closed)] is OpenCV's. *)
Variable approxPolyDP : contour → Qc → bool → contour.

Variable self : t.
(** What [cv2.findContours] returned for [self.mask]:
    [contours] and the rows of [hierarchy[0]]. *)
Variable contours : list contour.
Variable hierarchy : list hrow.
Variable epsilon : Qc.

(** The inner [while]: [None] when the fuel runs out. *)
Fixpoint child_loop (fuel : nat) (child_current_idx : Z)
    (ring : list qpoint) : option (res (list qpoint)) :=
  if decide (child_current_idx = -1) then Some (Ok ring) else
  match fuel with
  | O => None
  | S fuel =>
      match PyList.getitem hierarchy child_current_idx with
      | Raise e => Some (Raise e)
      | Ok (child_next_idx, _, _, _) =>
          match PyList.getitem contours child_current_idx with
          | Raise e => Some (Raise e)
          | Ok child_contour =>
              let ring :=
                if long_enough self child_contour then
                  let child_contour := approxPolyDP child_contour epsilon true in
                  let child_contour := descale self child_contour in
                  let child_contour := close_ring child_contour in
                  splice ring child_contour
                else ring in
              child_loop fuel child_next_idx ring
          end
      end
  end.

(** The shape built from a ring: [Shape(shape_type="polygon", ...)],
    then [addPoint] for every point. *)
Definition shape_of_ring (ring : list qpoint) : res (Shape.t qpoint) :=
  res_bind
    (Shape.init (label self) None (Some "polygon"%string) (flags self)
                (group_id self) (description self))
    (λ shape, Ok (foldl (λ shape p, Shape.addPoint p shape) shape ring)).

(** The outer [while]; [cfuel] bounds each inner loop. *)
Fixpoint outer_loop (cfuel fuel : nat) (current_idx : Z)
    (shapes : list (Shape.t qpoint)) : option (res (list (Shape.t qpoint))) :=
  if decide (current_idx = -1) then Some (Ok shapes) else
  match fuel with
  | O => None
  | S fuel =>
      match PyList.getitem hierarchy current_idx with
      | Raise e => Some (Raise e)
      | Ok (next_idx, _, child_current_idx, _) =>
          match PyList.getitem contours current_idx with
          | Raise e => Some (Raise e)
          | Ok c =>
              let c := approxPolyDP c epsilon true in
              let ring := descale self c in
              let ring := close_ring ring in
              match child_loop cfuel child_current_idx ring with
              | None => None
              | Some (Raise e) => Some (Raise e)
              | Some (Ok ring) =>
                  if bool_decide (length ring < 5)%nat then
                    outer_loop cfuel fuel next_idx shapes
                  else
                    match shape_of_ring ring with
                    | Raise e => Some (Raise e)
                    | Ok shape =>
                        outer_loop cfuel fuel next_idx (shapes ++ [shape])
                    end
              end
          end
      end
  end.

Definition toPolygons (fuel : nat) : option (res (list (Shape.t qpoint))) :=
  if bool_decide (length contours = 0%nat) then Some (Ok [])
  else outer_loop fuel fuel 0 [].

(** *** The spec's description, to compare with *)

(** The contours of a sibling chain, in chain order. *)
Fixpoint siblings (fuel : nat) (idx : Z) : option (res (list contour)) :=
  if decide (idx = -1) then Some (Ok []) else
  match fuel with
  | O => None
  | S fuel =>
      match PyList.getitem hierarchy idx with
      | Raise e => Some (Raise e)
      | Ok row =>
          match PyList.getitem contours idx with
          | Raise e => Some (Raise e)
          | Ok c =>
              match siblings fuel row.1.1.1 with
              | None => None
              | Some (Raise e) => Some (Raise e)
              | Some (Ok rest) => Some (Ok (c :: rest))
              end
          end
      end
  end.

(** The outer contours in sibling order from [idx], each with its holes:
    the sibling chain of its first child. *)
Fixpoint forest (cfuel fuel : nat) (idx : Z)
  : option (res (list (contour * list contour))) :=
  if decide (idx = -1) then Some (Ok []) else
  match fuel with
  | O => None
  | S fuel =>
      match PyList.getitem hierarchy idx with
      | Raise e => Some (Raise e)
      | Ok row =>
          match PyList.getitem contours idx with
          | Raise e => Some (Raise e)
          | Ok c =>
              match siblings cfuel row.1.2 with
              | None => None
              | Some (Raise e) => Some (Raise e)
              | Some (Ok holes) =>
                  match forest cfuel fuel row.1.1.1 with
                  | None => None
                  | Some (Raise e) => Some (Raise e)
                  | Some (Ok rest) => Some (Ok ((c, holes) :: rest))
                  end
              end
          end
      end
  end.

(** Simplify, descale, close. *)
Definition spec_closed_ring (c : contour) : list qpoint :=
  close_ring (descale self (approxPolyDP c epsilon true)).

(** The ring of an outer contour with its holes: every hole of at least
    [10/scale] points goes in after the ring's first two points. *)
Definition spec_ring (outer_holes : contour * list contour) : list qpoint :=
  foldl (λ ring hole,
           if long_enough self hole
           then take 2 ring ++ spec_closed_ring hole ++ drop 1 ring
           else ring)
        (spec_closed_ring outer_holes.1) outer_holes.2.

(** Rings of fewer than 5 points are dropped. *)
Definition spec_surviving (rings : list (list qpoint)) : list (list qpoint) :=
  filter (λ ring, 5 ≤ length ring)%nat rings.

(** The polygon of a ring, inheriting the passthrough fields. *)
Definition spec_polygon (ring : list qpoint) : Shape.t qpoint :=
  foldl (λ shape p, Shape.addPoint p shape)
        (Shape.mk (label self) (group_id self) [] false false "polygon"
                  (flags self) (description self) [] None Shape.NEAR_VERTEX
                  false None)
        ring.

(** The rings that become shapes, in order. *)
Definition toRings (fuel : nat) : option (res (list (list qpoint))) :=
  if bool_decide (length contours = 0%nat) then Some (Ok [])
  else
    match forest fuel fuel 0 with
    | None => None
    | Some r => Some (res_map (λ f, spec_surviving (spec_ring <$> f)) r)
    end.

(** A hierarchy whose links point forward: every next-sibling and
    first-child index is [-1] or an index after the row's own. *)
Definition forward_link (i : nat) (link : Z) : bool :=
  bool_decide (link = -1 ∨ Z.of_nat i < link < Z.of_nat (length hierarchy)).

(** An index the loops can be at with [fuel] turns left. *)
Definition within (fuel : nat) (idx : Z) : Prop :=
  idx = -1
  ∨ (0 ≤ idx < Z.of_nat (length hierarchy)
     ∧ Z.of_nat (length hierarchy) - idx ≤ Z.of_nat fuel).

Definition forward_links : bool :=
  forallb (λ ir : nat * hrow,
             forward_link ir.1 ir.2.1.1.1 && forward_link ir.1 ir.2.1.2)
          (imap pair hierarchy).
End ToPolygons.
End MaskShape.

(** ** Paths of [Shape]: makePath, containsPoint, boundingRect *)

Module ShapePath.

(** [QRectF(x, y, w, h)] *)
Inductive rectf : Type := QRectF (x y w h : Qc).

(** A [QPainterPath], as the calls that built it. *)
Inductive cmd : Type :=
  | Start (p : qpoint)
  | LineTo (p : qpoint)
  | AddRect (r : rectf)
  | AddEllipse (r : option rectf).

Definition path : Type := list cmd.

Section Paths.
(** [math.sqrt] *)
Variable sqrt : Qc → Qc.

Definition getRectFromLine (pt1 pt2 : qpoint) : rectf :=
  QRectF pt1.1 pt1.2 (pt2.1 - pt1.1)%Qc (pt2.2 - pt1.2)%Qc.

(** [None] unless [line] holds exactly two points. *)
Definition getCircleRectFromLine (line : list qpoint) : option rectf :=
  match line with
  | [c; pt] =>
      let r : qpoint := ((c.1 - pt.1)%Qc, (c.2 - pt.2)%Qc) in
      let d := sqrt (r.1 * r.1 + r.2 * r.2)%Qc in
      Some (QRectF (c.1 - d)%Qc (c.2 - d)%Qc (Z2Qc 2 * d)%Qc (Z2Qc 2 * d)%Qc)
  | _ => None
  end.

Definition makePath (self : Shape.t qpoint) : res path :=
  if bool_decide (Shape.shape_type self = "rectangle"%string) then
    match Shape.points self with
    | [pt1; pt2] => Ok [AddRect (getRectFromLine pt1 pt2)]
    | _ => Ok []
    end
  else if bool_decide (Shape.shape_type self = "circle"%string) then
    if bool_decide (length (Shape.points self) = 2%nat)
    then Ok [AddEllipse (getCircleRectFromLine (Shape.points self))]
    else Ok []
  else
    res_bind (PyList.getitem (Shape.points self) 0) (λ p0,
      Ok (Start p0 :: (LineTo <$> drop 1 (Shape.points self)))).

(** [QPainterPath.contains] and [QPainterPath.boundingRect] are Qt's. *)
Variable contains : path → qpoint → bool.
Variable pathBoundingRect : path → rectf.


End Paths.
End ShapePath.

(** ** Concrete shapes, for the examples *)

Module Examples.
Import MaskShape.

(** [QPointF(x, y)] at integer coordinates. *)
Definition P (x y : Z) : qpoint := (Z2Qc x, Z2Qc y).

Definition blank (kind : string) (ps : list qpoint) : Shape.t qpoint :=
  Shape.mk None None ps false false kind None None [] None Shape.NEAR_VERTEX
           false None.

(** A rectangle holding its two corners. *)
Definition rect2 : Shape.t qpoint := blank "rectangle" [P 0 0; P 4 3].

(** An open triangle and an open square. *)
Definition tri : Shape.t qpoint := blank "polygon" [P 0 0; P 10 0; P 10 10].
Definition quad : Shape.t qpoint :=
  blank "polygon" [P 0 0; P 10 0; P 10 10; P 0 10].

(** An open path of two points, and a point [2^-50] to the right of its
    first one. *)
Definition segment : Shape.t qpoint := blank "polygon" [P 0 0; P 10 0].
Definition near_origin : qpoint := ((Z2Qc 1 / Z2Qc (2 ^ 50))%Qc, Z2Qc 0).

(** An index that does not fit [Py_ssize_t]. *)
Definition huge : Z := 2 ^ 63.

(** A mask at scale 1, and an [approxPolyDP] that keeps every point. *)
Definition mask1 : MaskShape.t :=
  MaskShape.mk (Some "cell"%string) None None None (Z2Qc 1).

Definition keep_all (c : contour) (_ : Qc) (_ : bool) : contour := c.

(** A square with a hole of 12 contour points and a hole of 4. *)
Definition frame_contours : list contour :=
  [ [(0, 0); (0, 19); (19, 19); (19, 0)];
    [(5, 5); (6, 5); (7, 5); (8, 5); (8, 6); (8, 7); (8, 8); (7, 8); (6, 8);
     (5, 8); (5, 7); (5, 6)];
    [(12, 12); (13, 12); (13, 13); (12, 13)] ].

Definition frame_hierarchy : list hrow :=
  [ (-1, -1, 1, -1); (2, -1, -1, 0); (-1, 1, -1, 0) ].

(** The outline of a diamond, one pixel wide: the border of the hole runs
    over the pixels of the outer border, the topmost pixel [(3, 0)], where
    the outer contour starts, among them. *)
Definition diamond_contours : list contour :=
  [ [(3, 0); (2, 1); (1, 2); (0, 3); (1, 4); (2, 5); (3, 6); (4, 5); (5, 4);
     (6, 3); (5, 2); (4, 1)];
    [(2, 1); (3, 0); (4, 1); (5, 2); (6, 3); (5, 4); (4, 5); (3, 6); (2, 5);
     (1, 4); (0, 3); (1, 2)] ].

Definition diamond_hierarchy : list hrow :=
  [ (-1, -1, 1, -1); (-1, -1, -1, 0) ].

(** What [cv2.approxPolyDP(c, 1, True)] returns for these two contours:
    the four corners, from [(3, 0)] on in the direction of the contour.
    Other contours are not needed and stay as they are. *)
Definition diamond_approx (c : contour) (_ : Qc) (_ : bool) : contour :=
  if bool_decide (Some c = diamond_contours !! 0%nat)
  then [(3, 0); (0, 3); (3, 6); (6, 3)]
  else if bool_decide (Some c = diamond_contours !! 1%nat)
  then [(3, 0); (6, 3); (3, 6); (0, 3)]
  else c.

(** Its ring: the first two points of the closed outer contour, the closed
    hole, the closed outer contour from its second point. *)
Definition diamond_ring : list qpoint :=
  (λ xy : Z * Z, P xy.1 xy.2) <$>
  [ (3, 0); (0, 3);
    (3, 0); (6, 3); (3, 6); (0, 3); (3, 0);
    (0, 3); (3, 6); (6, 3); (3, 0) ].

(** The points of the shape made from it: [(3, 0)] is gone at both ends of
    the hole as well as from the end. *)
Definition diamond_points : list qpoint :=
  (λ xy : Z * Z, P xy.1 xy.2) <$>
  [ (3, 0); (0, 3);
    (6, 3); (3, 6); (0, 3);
    (0, 3); (3, 6); (6, 3) ].

(** The query point [(5, 0.1)]. *)
Definition query : qpoint := (Z2Qc 5, (Z2Qc 1 / Z2Qc 10)%Qc).

(** A distance function that is exact for a segment parallel to an axis and
    a point that projects inside it. *)
Definition axis_distance (p : qpoint) (line : qpoint * qpoint) : Qc :=
  let d := if bool_decide (line.1.1 = line.2.1)
           then (p.1 - line.1.1)%Qc else (p.2 - line.1.2)%Qc in
  if bool_decide (d < Z2Qc 0)%Qc then (- d)%Qc else d.

(** One prompt point, once positive and once negative. *)
Definition prompt_pos : MultipoinstShape.t qpoint :=
  MultipoinstShape.mk [P 1 1] [true] false [] false "multipoints".
Definition prompt_neg : MultipoinstShape.t qpoint :=
  MultipoinstShape.mk [P 1 1] [false] false [] false "multipoints".
End Examples.

Module MoreExamples.
(** [QPointF - QPointF] *)
Definition psub (p q : qpoint) : qpoint := ((p.1 - q.1)%Qc, (p.2 - q.2)%Qc).

(** A length of a vector that stays rational: the sum of the absolute
    values of its coordinates. *)
Definition taxi (v : qpoint) : Qc :=
  let abs (x : Qc) := if bool_decide (x < Z2Qc 0)%Qc then (- x)%Qc else x in
  (abs v.1 + abs v.2)%Qc.

(** Two prompt points. *)
Definition prompts2 : MultipoinstShape.t qpoint :=
  MultipoinstShape.mk [Examples.P 1 1; Examples.P 2 2] [true; false]
                      false [] false "multipoints".

End MoreExamples.

(** * Facts *)

(** ** Python lists *)

Module PyListFacts.
Section PyListFacts.
Context {A : Type}.
Implicit Types (l : list A) (i : Z) (k : nat).

Lemma norm_index_lt l i k : PyList.norm_index l i = Some k → (k < length l)%nat.
Proof.
  unfold PyList.norm_index. repeat case_decide; intros [= <-]; lia.
Qed.

Lemma norm_index_nonneg l k :
  (k < length l)%nat → PyList.norm_index l (Z.of_nat k) = Some k.
Proof.
  intros Hk. unfold PyList.norm_index.
  rewrite decide_True by lia. by rewrite Nat2Z.id.
Qed.

Lemma norm_index_length {B} l (l' : list B) i :
  length l = length l' → PyList.norm_index l i = PyList.norm_index l' i.
Proof. unfold PyList.norm_index. by intros ->. Qed.

Lemma getitem_Ok l i x :
  PyList.getitem l i = Ok x ↔ ∃ k, PyList.norm_index l i = Some k ∧ l !! k = Some x.
Proof.
  unfold PyList.getitem. destruct (PyList.norm_index l i) as [k|] eqn:Hk.
  - destruct (l !! k) as [y|] eqn:Hy; split.
    + intros [= ->]. eauto.
    + intros (k' & [= <-] & Hx). congruence.
    + done.
    + intros (k' & [= <-] & Hx). congruence.
  - split; [done|]. by intros (k' & ? & _).
Qed.

Lemma getitem_norm l i k :
  PyList.norm_index l i = Some k → ∃ x, l !! k = Some x ∧ PyList.getitem l i = Ok x.
Proof.
  intros Hk. destruct (lookup_lt_is_Some_2 l k) as [x Hx].
  { by eapply norm_index_lt. }
  exists x. split; [done|]. unfold PyList.getitem. by rewrite Hk, Hx.
Qed.

Lemma getitem_None l i :
  PyList.norm_index l i = None → PyList.getitem l i = Raise IndexError.
Proof. unfold PyList.getitem. by intros ->. Qed.

Lemma pop_at_norm l i k :
  PyList.in_ssize_t i = true →
  PyList.norm_index l i = Some k →
  ∃ x, l !! k = Some x ∧ PyList.pop_at l i = Ok (x, delete k l).
Proof.
  intros Hi Hk. destruct (lookup_lt_is_Some_2 l k) as [x Hx].
  { by eapply norm_index_lt. }
  exists x. split; [done|]. unfold PyList.pop_at. by rewrite Hi, Hk, Hx.
Qed.

Lemma pop_at_None l i :
  PyList.in_ssize_t i = true →
  PyList.norm_index l i = None → PyList.pop_at l i = Raise IndexError.
Proof. unfold PyList.pop_at. by intros -> ->. Qed.

Lemma setslice_all (l values : list A) :
  PyList.setslice l None None None values = Ok values.
Proof.
  unfold PyList.setslice, PyList.slice_indices.
  rewrite !bool_decide_eq_false_2 by lia. cbn.
  rewrite Z.max_r by lia. rewrite Nat2Z.id, drop_all, app_nil_r. done.
Qed.

Lemma setslice_range (l values : list A) (a b : nat) :
  (a ≤ b ≤ length l)%nat →
  PyList.setslice l (Some (Z.of_nat a)) (Some (Z.of_nat b)) None values
  = Ok (take a l ++ values ++ drop b l).
Proof.
  intros Hab. unfold PyList.setslice, PyList.slice_indices.
  rewrite !bool_decide_eq_false_2 by lia. cbn.
  rewrite !Z.min_l by lia. rewrite Z.max_r by lia.
  by rewrite !Nat2Z.id.
Qed.

Lemma in_ssize_t_true (i : Z) :
  - 2 ^ 63 ≤ i < 2 ^ 63 → PyList.in_ssize_t i = true.
Proof.
  intros Hi. apply bool_decide_eq_true_2.
  unfold PyList.ssize_min, PyList.ssize_max. lia.
Qed.

Lemma in_ssize_t_false (i : Z) :
  ¬ (- 2 ^ 63 ≤ i < 2 ^ 63) → PyList.in_ssize_t i = false.
Proof.
  intros Hi. apply bool_decide_eq_false_2.
  unfold PyList.ssize_min, PyList.ssize_max. lia.
Qed.

Lemma setslice_append (l values : list A) :
  PyList.setslice l (Some (Z.of_nat (length l))) None None values
  = Ok (l ++ values).
Proof.
  unfold PyList.setslice, PyList.slice_indices.
  rewrite !bool_decide_eq_false_2 by lia. cbn.
  rewrite Z.min_l, Z.max_l by lia.
  rewrite Nat2Z.id, take_ge, drop_ge by lia. by rewrite app_nil_r.
Qed.

Lemma pop_at_overflow l i :
  PyList.in_ssize_t i = false → PyList.pop_at l i = Raise OverflowError.
Proof. unfold PyList.pop_at. by intros ->. Qed.

(** An index between [0] and a length that fits [Py_ssize_t] fits it. *)
Lemma in_ssize_t_index l i :
  Z.of_nat (length l) ≤ PyList.ssize_max →
  - Z.of_nat (length l) ≤ i ≤ Z.of_nat (length l) →
  PyList.in_ssize_t i = true.
Proof.
  intros Hlen Hi. apply bool_decide_eq_true_2.
  unfold PyList.ssize_min, PyList.ssize_max in *. lia.
Qed.

Lemma pop_at_length {B} l (l' : list B) i :
  length l = length l' →
  match PyList.pop_at l i, PyList.pop_at l' i with
  | Ok _, Ok _ => True
  | Raise e, Raise e' => e = e'
  | _, _ => False
  end.
Proof.
  intros Hlen. unfold PyList.pop_at.
  destruct (negb (PyList.in_ssize_t i)); [done|].
  rewrite (norm_index_length l l' i Hlen).
  destruct (PyList.norm_index l' i) as [k|] eqn:Hk; [|done].
  assert (Hlt : (k < length l')%nat).
  { unfold PyList.norm_index in Hk. repeat case_decide; simplify_eq; lia. }
  destruct (lookup_lt_is_Some_2 l' k Hlt) as [y ->].
  destruct (lookup_lt_is_Some_2 l k) as [x ->]; [lia|done].
Qed.

Lemma pop_at_Ok l i x l' :
  PyList.pop_at l i = Ok (x, l') →
  PyList.in_ssize_t i = true
  ∧ ∃ k, PyList.norm_index l i = Some k ∧ l !! k = Some x ∧ l' = delete k l.
Proof.
  unfold PyList.pop_at. destruct (PyList.in_ssize_t i); [|done]. cbn.
  destruct (PyList.norm_index l i) as [k|]; [|done].
  destruct (l !! k) as [y|] eqn:Hy; [|done]. intros [= -> <-]. eauto.
Qed.

Lemma pop_snoc l x : PyList.pop (l ++ [x]) = Ok (x, l).
Proof. unfold PyList.pop. by rewrite last_snoc, removelast_last. Qed.

Lemma pop_cons_Ok x l : ∃ y l', x :: l = l' ++ [y] ∧ PyList.pop (x :: l) = Ok (y, l').
Proof.
  destruct (exists_last (l:=x :: l)) as (l' & y & Heq); [done|].
  exists y, l'. split; [done|]. rewrite Heq. apply pop_snoc.
Qed.

Lemma length_removelast l : length (removelast l) = pred (length l).
Proof.
  induction l as [|x [|y l] IH]; [done..|].
  change (removelast (x :: y :: l)) with (x :: removelast (y :: l)).
  cbn [length] in *. by rewrite IH.
Qed.

Lemma length_insert_at l i v : length (PyList.insert_at l i v) = S (length l).
Proof.
  unfold PyList.insert_at. rewrite length_app. cbn [length].
  rewrite length_take, length_drop. lia.
Qed.

Lemma length_pop_at l i x l' :
  PyList.pop_at l i = Ok (x, l') → S (length l') = length l.
Proof.
  intros (_ & k & _ & Hx & ->)%pop_at_Ok.
  rewrite length_delete by (by eexists). apply lookup_lt_Some in Hx. lia.
Qed.

Lemma length_pop l x l' : PyList.pop l = Ok (x, l') → S (length l') = length l.
Proof.
  unfold PyList.pop. destruct (list.last l) as [y|] eqn:Hy; [|done].
  intros [= -> <-]. rewrite length_removelast.
  destruct l; [done|]. cbn. lia.
Qed.

Lemma length_setitem l i v l' :
  PyList.setitem l i v = Ok l' → length l' = length l.
Proof.
  unfold PyList.setitem. destruct (PyList.norm_index l i); [|done].
  intros [= <-]. apply length_insert.
Qed.
End PyListFacts.
End PyListFacts.


(** ** Shape: kind validation *)

Module ShapeFacts.
Section ShapeFacts.
Context {point : Type} `{PointOps point}.
Implicit Types (self : Shape.t point) (p : point).

Lemma check_shape_type_valid (k : string) :
  k ∈ Shape.shape_types → Shape.check_shape_type (Some k) = Ok k.
Proof.
  intros Hk. unfold Shape.check_shape_type.
  by rewrite bool_decide_eq_true_2.
Qed.

Lemma check_shape_type_invalid (k : string) :
  k ∉ Shape.shape_types →
  Shape.check_shape_type (Some k)
  = Raise (ValueError ("Unexpected shape_type: " +:+ k)).
Proof.
  intros Hk. unfold Shape.check_shape_type.
  by rewrite bool_decide_eq_false_2.
Qed.

Lemma init_valid label lc (k : string) fl gid desc :
  k ∈ Shape.shape_types →
  Shape.init (point:=point) label lc (Some k) fl gid desc
  = Ok (Shape.mk label gid [] false false k fl desc [] None Shape.NEAR_VERTEX
                 false lc).
Proof.
  intros Hk. unfold Shape.init. by rewrite check_shape_type_valid.
Qed.

Lemma removePoint_refused i self :
  Shape.refuses_removal self →
  ∃ w, Shape.removePoint i self = (Ok tt, self, [w]).
Proof.
  unfold Shape.removePoint. intros [Hc|[[Hk Hn]|[Hk Hn]]].
  - rewrite Hc. cbn. eauto.
  - destruct (negb _); [eauto|].
    rewrite (bool_decide_eq_true_2 _ Hk), (bool_decide_eq_true_2 _ Hn). cbn. eauto.
  - destruct (negb _); [eauto|].
    destruct (_ && _); [eauto|].
    rewrite (bool_decide_eq_true_2 _ Hk), (bool_decide_eq_true_2 _ Hn). cbn. eauto.
Qed.

Lemma removePoint_accepted i self :
  ¬ Shape.refuses_removal self →
  Shape.removePoint i self
  = match PyList.pop_at (Shape.points self) i with
    | Ok (_, ps) => (Ok tt, Shape.with_points self ps, [])
    | Raise e => (Raise e, self, [])
    end.
Proof.
  unfold Shape.refuses_removal, Shape.removePoint. intros Hno.
  destruct (Shape.canAddPoint self) eqn:Hc; [|tauto]. cbn [negb].
  destruct (bool_decide (Shape.shape_type self = "polygon"%string)
            && bool_decide (length (Shape.points self) ≤ 3)%nat) eqn:H1.
  { apply andb_true_iff in H1 as [?%bool_decide_eq_true ?%bool_decide_eq_true]. tauto. }
  destruct (bool_decide (Shape.shape_type self = "linestrip"%string)
            && bool_decide (length (Shape.points self) ≤ 2)%nat) eqn:H2.
  { apply andb_true_iff in H2 as [?%bool_decide_eq_true ?%bool_decide_eq_true]. tauto. }
  done.
Qed.

Lemma length_removePoint i self :
  (length (Shape.points (Shape.removePoint i self).1.2) ≤ length (Shape.points self))%nat.
Proof.
  unfold Shape.removePoint.
  destruct (negb _); [cbn; lia|].
  destruct (_ && _); [cbn; lia|].
  destruct (_ && _); [cbn; lia|].
  destruct (PyList.pop_at _ i) as [[x ps]|e] eqn:Hp; cbn; [|lia].
  apply PyListFacts.length_pop_at in Hp. lia.
Qed.

Lemma length_popPoint self :
  (length (Shape.points (Shape.popPoint self).2) ≤ length (Shape.points self))%nat.
Proof.
  unfold Shape.popPoint. destruct (Shape.points self) as [|x l] eqn:Hps.
  - cbn. rewrite Hps. cbn. lia.
  - destruct (PyList.pop (x :: l)) as [[y ps]|e] eqn:Hp; cbn.
    + apply PyListFacts.length_pop in Hp. cbn in Hp. lia.
    + rewrite Hps. cbn. lia.
Qed.

Lemma length_moveVertexBy i offset self :
  length (Shape.points (Shape.moveVertexBy i offset self).2)
  = length (Shape.points self).
Proof.
  unfold Shape.moveVertexBy.
  destruct (PyList.getitem _ i); [|done].
  destruct (PyList.setitem _ i _) as [ps|] eqn:Hs; [|done].
  cbn. by apply PyListFacts.length_setitem in Hs.
Qed.

Lemma length_points_setitem key value self :
  length (Shape.points (Shape.setitem key value self).2)
  = length (Shape.points self).
Proof.
  unfold Shape.setitem.
  destruct (PyList.setitem _ key _) as [ps|] eqn:Hs; [|done].
  cbn. by apply PyListFacts.length_setitem in Hs.
Qed.

Lemma points_set_shape_type value self :
  Shape.points (Shape.set_shape_type value self).2 = Shape.points self.
Proof.
  unfold Shape.set_shape_type. by destruct (Shape.check_shape_type value).
Qed.

(** Apart from [addPoint] and [insertPoint], no operation makes the point
    list longer. *)
Lemma exec_no_growth (o : Shape.op) self :
  Shape.grows o = false →
  (length (Shape.points (Shape.exec o self)) ≤ length (Shape.points self))%nat.
Proof.
  destruct o; cbn [Shape.grows Shape.exec]; intros Hg; try done.
  - apply length_popPoint.
  - apply length_removePoint.
  - unfold Shape.moveBy. cbn. by rewrite length_fmap.
  - by rewrite length_moveVertexBy.
  - by rewrite length_points_setitem.
  - by rewrite points_set_shape_type.
Qed.

Lemma addPoint_first p self :
  is_first p (Shape.points self) = true →
  Shape.addPoint p self = Shape.with_closed self true.
Proof.
  unfold Shape.addPoint, is_first.
  destruct (Shape.points self) as [|p0 rest]; [done|]. by intros ->.
Qed.

Lemma addPoint_other p self :
  is_first p (Shape.points self) = false →
  Shape.addPoint p self = Shape.with_points self (Shape.points self ++ [p]).
Proof.
  unfold Shape.addPoint, is_first.
  destruct (Shape.points self) as [|p0 rest]; [done|]. by intros ->.
Qed.

Lemma is_first_head p rest : is_first p (p :: rest) = true.
Proof. apply point_eqb_refl. Qed.
End ShapeFacts.
End ShapeFacts.

(** ** Shape: the claims *)

(** C3. A kind outside the six listed ones is refused: the constructor
    raises [ValueError] (the spec's ValidationError) and returns no object,
    and the setter raises it and leaves the shape as it was. *)
Theorem C3_invalid_kind_refused :
  ∀ (point : Type) (ops : PointOps point) (k : string),
    k ∉ Shape.shape_types →
    (∀ label lc fl gid desc,
        Shape.init (point:=point) label lc (Some k) fl gid desc
        = Raise (ValueError ("Unexpected shape_type: " +:+ k)))
    ∧ (∀ self : Shape.t point,
        Shape.set_shape_type (Some k) self
        = (Raise (ValueError ("Unexpected shape_type: " +:+ k)), self)).
Proof.
  intros point ops k Hk. split.
  - intros. unfold Shape.init.
    by rewrite ShapeFacts.check_shape_type_invalid.
  - intros self. unfold Shape.set_shape_type.
    by rewrite ShapeFacts.check_shape_type_invalid.
Qed.

Lemma C3_witness :
  Shape.init (point:=qpoint) None None (Some "triangle"%string)
             None None None
  = Raise (ValueError "Unexpected shape_type: triangle")
  ∧ Shape.set_shape_type (Some "triangle"%string) Examples.rect2
    = (Raise (ValueError "Unexpected shape_type: triangle"), Examples.rect2).
Proof.
  assert (Hk : ("triangle"%string) ∉ Shape.shape_types).
  { apply (bool_decide_unpack _). vm_compute. exact I. }
  split.
  - exact (proj1 (C3_invalid_kind_refused qpoint _ "triangle" Hk)
                 None None None None None).
  - exact (proj2 (C3_invalid_kind_refused qpoint _ "triangle" Hk)
                 Examples.rect2).
Defined.

(** C9. With no kind given the constructor succeeds with kind "polygon",
    and setting the kind to [None] succeeds and gives the shape with kind
    "polygon" and every other field as it was. *)
Theorem C9_kind_defaults_to_polygon :
  ∀ (point : Type) (ops : PointOps point),
    (∀ label lc fl gid desc,
        Shape.init (point:=point) label lc None fl gid desc
        = Ok (Shape.mk label gid [] false false "polygon" fl desc [] None
                       Shape.NEAR_VERTEX false lc))
    ∧ (∀ self : Shape.t point,
        Shape.set_shape_type None self
        = (Ok tt,
           Shape.mk (Shape.label self) (Shape.group_id self)
                    (Shape.points self) (Shape.fill self)
                    (Shape.selected self) "polygon" (Shape.flags self)
                    (Shape.description self) (Shape.other_data self)
                    (Shape.highlightIndex self) (Shape.highlightMode self)
                    (Shape.closed self) (Shape.line_color self))).
Proof. intros point ops. split; reflexivity. Qed.

(** C4, as the code has it. The test of [addPoint] is Qt's [==] on
    [QPointF], here [point_eqb]: with a first point [p0] that [p == p0]
    holds for, [addPoint p] sets [closed] and keeps the points, [p] itself
    being a case of it; with no point yet, or a first point that [==] tells
    from [p], it appends [p] and keeps [closed]. Every other field stays. *)
Theorem C4_addPoint_closes_or_appends :
  ∀ (point : Type) (ops : PointOps point) (self : Shape.t point) (p : point),
    (∀ p0 rest, Shape.points self = p0 :: rest → point_eqb p p0 = true →
        Shape.points (Shape.addPoint p self) = Shape.points self
        ∧ Shape.closed (Shape.addPoint p self) = true
        ∧ Shape.addPoint p self
          = Shape.mk (Shape.label self) (Shape.group_id self)
                     (Shape.points self) (Shape.fill self)
                     (Shape.selected self) (Shape.shape_type self)
                     (Shape.flags self) (Shape.description self)
                     (Shape.other_data self) (Shape.highlightIndex self)
                     (Shape.highlightMode self) true (Shape.line_color self))
    ∧ (∀ rest, Shape.points self = p :: rest →
        Shape.points (Shape.addPoint p self) = Shape.points self
        ∧ Shape.closed (Shape.addPoint p self) = true)
    ∧ ((Shape.points self = []
        ∨ ∃ p0 rest, Shape.points self = p0 :: rest ∧ point_eqb p p0 = false) →
        Shape.points (Shape.addPoint p self) = Shape.points self ++ [p]
        ∧ Shape.closed (Shape.addPoint p self) = Shape.closed self
        ∧ Shape.addPoint p self
          = Shape.mk (Shape.label self) (Shape.group_id self)
                     (Shape.points self ++ [p]) (Shape.fill self)
                     (Shape.selected self) (Shape.shape_type self)
                     (Shape.flags self) (Shape.description self)
                     (Shape.other_data self) (Shape.highlightIndex self)
                     (Shape.highlightMode self) (Shape.closed self)
                     (Shape.line_color self)).
Proof.
  intros point ops self p. split; [|split].
  - intros p0 rest Hps Heq. rewrite ShapeFacts.addPoint_first; [done|].
    by rewrite Hps.
  - intros rest Hps. rewrite ShapeFacts.addPoint_first; [done|].
    rewrite Hps. apply ShapeFacts.is_first_head.
  - intros Hother. rewrite ShapeFacts.addPoint_other; [done|].
    destruct Hother as [->|(p0 & rest & -> & Hne)]; done.
Qed.

Lemma C4_witness :
  Shape.points (Shape.addPoint (Examples.P 0 0) Examples.tri)
  = Shape.points Examples.tri
  ∧ Shape.points (Shape.addPoint (Examples.P 7 7) Examples.tri)
    = Shape.points Examples.tri ++ [Examples.P 7 7].
Proof.
  split.
  - apply (proj1 (C4_addPoint_closes_or_appends _ _ Examples.tri (Examples.P 0 0))
                 (Examples.P 0 0) [Examples.P 10 0; Examples.P 10 10]);
      vm_compute; reflexivity.
  - apply (proj2 (proj2 (C4_addPoint_closes_or_appends
                           _ _ Examples.tri (Examples.P 7 7)))).
    right. exists (Examples.P 0 0), [Examples.P 10 0; Examples.P 10 10].
    split; vm_compute; reflexivity.
Defined.

(** C4 as stated fails: [(2^-50, 0)] is another point than [(0, 0)], and
    Qt's [==] does not tell them apart; on the open path
    [(0, 0), (10, 0)] [addPoint] closes the path and does not append. *)
Lemma C4_counterexample :
  Shape.points Examples.segment = [Examples.P 0 0; Examples.P 10 0]
  ∧ Shape.closed Examples.segment = false
  ∧ Examples.near_origin ≠ Examples.P 0 0
  ∧ Shape.points (Shape.addPoint Examples.near_origin Examples.segment)
    = [Examples.P 0 0; Examples.P 10 0]
  ∧ Shape.closed (Shape.addPoint Examples.near_origin Examples.segment) = true.
Proof.
  split; [reflexivity|]. split; [reflexivity|]. split; [|split].
  - apply (bool_decide_unpack _). vm_compute. exact I.
  - vm_compute. reflexivity.
  - vm_compute. reflexivity.
Qed.

(** C8. [removePoint i] does nothing but report one warning when the kind
    is of fixed arity, or a polygon has at most 3 points, or a linestrip at
    most 2. Otherwise it removes the point at index [i], counted from the
    end when [i] is negative, and leaves every other field; it raises
    [IndexError] without a change when [i] is out of range, and
    [OverflowError] without a change when [i] does not fit [Py_ssize_t]. *)
Theorem C8_removePoint_guarded :
  ∀ (point : Type) (ops : PointOps point) (self : Shape.t point) (i : Z),
    let n := Z.of_nat (length (Shape.points self)) in
    let without (k : nat) :=
      Shape.mk (Shape.label self) (Shape.group_id self)
               (delete k (Shape.points self)) (Shape.fill self)
               (Shape.selected self) (Shape.shape_type self)
               (Shape.flags self) (Shape.description self)
               (Shape.other_data self) (Shape.highlightIndex self)
               (Shape.highlightMode self) (Shape.closed self)
               (Shape.line_color self) in
    (Shape.refuses_removal self →
       ∃ w, Shape.removePoint i self = (Ok tt, self, [w]))
    ∧ (¬ Shape.refuses_removal self →
       (0 ≤ i < n → i < 2 ^ 63 →
          Shape.removePoint i self = (Ok tt, without (Z.to_nat i), []))
       ∧ (- n ≤ i < 0 → - 2 ^ 63 ≤ i →
          Shape.removePoint i self = (Ok tt, without (Z.to_nat (n + i)), []))
       ∧ (i < - n ∨ n ≤ i → - 2 ^ 63 ≤ i < 2 ^ 63 →
          Shape.removePoint i self = (Raise IndexError, self, []))
       ∧ (¬ (- 2 ^ 63 ≤ i < 2 ^ 63) →
          Shape.removePoint i self = (Raise OverflowError, self, []))).
Proof.
  intros point ops self i n without. split.
  { apply ShapeFacts.removePoint_refused. }
  intros Hno. rewrite ShapeFacts.removePoint_accepted by done.
  split; [|split; [|split]].
  - intros Hi Hfit.
    assert (Hk : PyList.norm_index (Shape.points self) i = Some (Z.to_nat i)).
    { unfold PyList.norm_index. by rewrite decide_True. }
    destruct (PyListFacts.pop_at_norm _ i _ (PyListFacts.in_ssize_t_true i ltac:(lia)) Hk)
      as (x & _ & ->). done.
  - intros Hi Hfit.
    assert (Hk : PyList.norm_index (Shape.points self) i
                 = Some (Z.to_nat (n + i))).
    { unfold PyList.norm_index. rewrite decide_False by lia.
      by rewrite decide_True. }
    destruct (PyListFacts.pop_at_norm _ i _ (PyListFacts.in_ssize_t_true i ltac:(lia)) Hk)
      as (x & _ & ->). done.
  - intros Hi Hfit. rewrite PyListFacts.pop_at_None; [done| |].
    + by apply PyListFacts.in_ssize_t_true.
    + unfold PyList.norm_index. by rewrite !decide_False by (subst n; lia).
  - intros Hfit. rewrite PyListFacts.pop_at_overflow; [done|].
    by apply PyListFacts.in_ssize_t_false.
Qed.

Lemma C8_witness :
  (∃ w, Shape.removePoint 1 Examples.tri = (Ok tt, Examples.tri, [w]))
  ∧ Shape.removePoint 1 Examples.quad
    = (Ok tt,
       Examples.blank "polygon"
         [Examples.P 0 0; Examples.P 10 10; Examples.P 0 10],
       [])
  ∧ Shape.removePoint Examples.huge Examples.quad
    = (Raise OverflowError, Examples.quad, []).
Proof.
  assert (Hquad : ¬ Shape.refuses_removal Examples.quad).
  { intros [Hc|[[_ Hn]|[Hk _]]].
    - vm_compute in Hc. discriminate Hc.
    - cbn in Hn. lia.
    - vm_compute in Hk. discriminate Hk. }
  split; [|split].
  - apply (proj1 (C8_removePoint_guarded _ _ Examples.tri 1)).
    right; left. split; [reflexivity|]. cbn. lia.
  - apply (proj1 (proj2 (C8_removePoint_guarded _ _ Examples.quad 1) Hquad));
      cbn; lia.
  - apply (proj2 (proj2 (proj2 (proj2 (C8_removePoint_guarded
                                         _ _ Examples.quad Examples.huge)
                                      Hquad)))).
    unfold Examples.huge. lia.
Defined.

(** C2, as the code has it. For a rectangle or a circle [canAddPoint] is
    false, and every operation other than [addPoint], [insertPoint] and
    the assignment to a slice keeps a list of at most 2 points within that
    bound. Those three do not look at the kind: [insertPoint] makes the
    list one longer for every index that fits [Py_ssize_t], [addPoint]
    does so unless [==] takes the point for the first one, and
    [self[:] = values] puts any list of points in place of the two. *)
Theorem C2_fixed_arity_bound :
  ∀ (point : Type) (ops : PointOps point) (self : Shape.t point),
    Shape.shape_type self ∈ ["rectangle"; "circle"]%string →
    (length (Shape.points self) ≤ 2)%nat →
    Shape.canAddPoint self = false
    ∧ (∀ o, match o with
            | Shape.AddPoint _ | Shape.InsertPoint _ _
            | Shape.SetSlice _ _ _ _ => False
            | _ => True
            end →
            (length (Shape.points (Shape.exec o self)) ≤ 2)%nat)
    ∧ (∀ i p, - 2 ^ 63 ≤ i < 2 ^ 63 →
              length (Shape.points (Shape.exec (Shape.InsertPoint i p) self))
              = S (length (Shape.points self)))
    ∧ (∀ p, (Shape.points self = []
             ∨ ∃ p0 rest, Shape.points self = p0 :: rest
                          ∧ point_eqb p p0 = false) →
            length (Shape.points (Shape.exec (Shape.AddPoint p) self))
            = S (length (Shape.points self)))
    ∧ (∀ values,
          Shape.points (Shape.exec (Shape.SetSlice None None None values) self)
          = values).
Proof.
  intros point ops self Hkind Hlen. split; [|split; [|split; [|split]]].
  - unfold Shape.canAddPoint. apply bool_decide_eq_false_2.
    intros Hk. rewrite !elem_of_cons, elem_of_nil in Hkind, Hk.
    destruct Hkind as [E|[E|[]]]; rewrite E in Hk;
      destruct Hk as [Hk|[Hk|[]]]; discriminate Hk.
  - intros o Ho.
    assert (Hgrows : Shape.grows o = false) by (by destruct o).
    pose proof (ShapeFacts.exec_no_growth o self Hgrows). lia.
  - intros i p Hfit. cbn. unfold Shape.insertPoint, PyList.insert.
    rewrite PyListFacts.in_ssize_t_true by done.
    cbn. apply PyListFacts.length_insert_at.
  - intros p Hp. cbn [Shape.exec]. rewrite ShapeFacts.addPoint_other.
    + cbn. rewrite length_app. cbn. lia.
    + destruct Hp as [->|(p0 & rest & -> & Hne)]; done.
  - intros values. cbn. unfold Shape.setslice.
    by rewrite PyListFacts.setslice_all.
Qed.

Lemma C2_witness :
  Shape.canAddPoint Examples.rect2 = false
  ∧ (length (Shape.points (Shape.exec (Shape.RemovePoint 0) Examples.rect2)) ≤ 2)%nat.
Proof.
  assert (Hk : Shape.shape_type Examples.rect2 ∈ ["rectangle"; "circle"]%string).
  { apply (bool_decide_unpack _). vm_compute. exact I. }
  assert (Hn : (length (Shape.points Examples.rect2) ≤ 2)%nat).
  { cbn. lia. }
  destruct (C2_fixed_arity_bound _ _ Examples.rect2 Hk Hn) as (Hc & Hops & _).
  split; [exact Hc|]. apply Hops. exact I.
Defined.

(** C2 as stated fails: a rectangle holding its two corners takes a third
    point from [addPoint], and from [insertPoint]. *)
Lemma C2_counterexample :
  Shape.shape_type Examples.rect2 = "rectangle"%string
  ∧ length (Shape.points Examples.rect2) = 2%nat
  ∧ length (Shape.points (Shape.exec (Shape.AddPoint (Examples.P 9 9))
                                     Examples.rect2)) = 3%nat
  ∧ length (Shape.points (Shape.exec (Shape.InsertPoint 1 (Examples.P 9 9))
                                     Examples.rect2)) = 3%nat.
Proof. repeat split; vm_compute; reflexivity. Qed.

(** ** MultipoinstShape: points and labels move together *)

Module MultipoinstFacts.
Section Zip.
Context {A B : Type}.
Implicit Types (l : list A) (m : list B).

Lemma zip_delete k l m : zip (delete k l) (delete k m) = delete k (zip l m).
Proof.
  revert k m. induction l as [|x l IH]; intros k m; [by destruct k|].
  destruct m as [|y m].
  - destruct k; [by destruct l|done].
  - destruct k as [|k]; [done|]. cbn. f_equal. apply IH.
Qed.

Lemma zip_insert_alter (f : A → A) k l m x :
  l !! k = Some x →
  zip (<[k:=f x]> l) m = alter (λ xy, (f xy.1, xy.2)) k (zip l m).
Proof.
  revert k m. induction l as [|a l IH]; intros k m Hx; [done|].
  destruct m as [|y m]; [by destruct k|].
  destruct k as [|k]; cbn in *.
  - by injection Hx as ->.
  - f_equal. by apply IH.
Qed.

Lemma zip_fmap_fst (f : A → A) l m :
  zip (f <$> l) m = (λ xy, (f xy.1, xy.2)) <$> zip l m.
Proof.
  revert m. induction l as [|a l IH]; intros [|y m]; cbn; [done..|].
  f_equal. apply IH.
Qed.

Lemma zip_snoc l m x y :
  length l = length m → zip (l ++ [x]) (m ++ [y]) = zip l m ++ [(x, y)].
Proof. intros Hlen. by rewrite zip_with_app. Qed.

Lemma zip_hd l m :
  length l = length m →
  match zip l m with [] => l = [] | (x, _) :: _ => ∃ l', l = x :: l' end.
Proof.
  destruct l as [|x l], m as [|y m]; cbn; intros Hlen; try done. eauto.
Qed.
End Zip.

Section Ops.
Context {point : Type} `{PointOps point}.
Implicit Types (self : MultipoinstShape.t point)
  (o : MultipoinstShape.op (point:=point)).

Import MultipoinstShape.

Lemma addPoint_steps p is_positive self :
  aligned self →
  aligned (addPoint p is_positive self)
  ∧ prompts (addPoint p is_positive self)
    = exec_prompts (prompts self) (AddPoint p is_positive).
Proof.
  unfold aligned, prompts, addPoint. intros Hal.
  pose proof (zip_hd _ _ Hal) as Hhd. cbn [exec_prompts].
  destruct (zip (points self) (labels self)) as [|[q l0] rest] eqn:Hz.
  - rewrite Hhd. cbn. rewrite Hhd in Hal.
    destruct (labels self); [done|discriminate Hal].
  - destruct Hhd as [ps' Hps]. rewrite Hps.
    destruct (point_eqb p q) eqn:Hpq; cbn [negb].
    + by split.
    + cbn [points labels with_labels with_points]. rewrite <- Hps. split.
      * rewrite !length_app. cbn. lia.
      * by rewrite zip_snoc, Hz.
Qed.

Lemma popPoint_steps self :
  aligned self →
  aligned (popPoint self).2
  ∧ prompts (popPoint self).2 = exec_prompts (prompts self) PopPoint.
Proof.
  unfold aligned, prompts, popPoint. intros Hal. cbn [exec_prompts].
  destruct (points self) as [|x ps] eqn:Hps.
  { cbn. rewrite Hps. by split. }
  destruct (labels self) as [|y ls] eqn:Hls; [discriminate Hal|].
  destruct (PyListFacts.pop_cons_Ok x ps) as (p & ps' & Eps & Hpp).
  destruct (PyListFacts.pop_cons_Ok y ls) as (l & ls' & Els & Hpl).
  rewrite Hpl. cbn [points with_labels]. rewrite Hps, Hpp.
  cbn [snd points labels with_points with_labels].
  rewrite Eps, Els in Hal |- *. rewrite !length_app in Hal. cbn in Hal.
  assert (length ps' = length ls') as Hal' by lia. split; [done|].
  by rewrite zip_snoc, removelast_last.
Qed.

Lemma removePoint_steps i self :
  aligned self →
  aligned (removePoint i self).1.2
  ∧ prompts (removePoint i self).1.2 = exec_prompts (prompts self) (RemovePoint i).
Proof.
  unfold aligned, prompts, removePoint. intros Hal. cbn [exec_prompts].
  rewrite length_zip, <- Hal, Nat.min_id.
  destruct (bool_decide (length (points self) ≤ 1)%nat); [by split|].
  destruct (PyList.in_ssize_t i) eqn:Hfit; cbn [negb];
    [|by rewrite PyListFacts.pop_at_overflow].
  rewrite <- (PyListFacts.norm_index_length (points self) (zip _ _))
    by (by rewrite length_zip, <- Hal, Nat.min_id).
  destruct (PyList.norm_index (points self) i) as [k|] eqn:Hk.
  - pose proof Hk as Hk'.
    rewrite (PyListFacts.norm_index_length _ (labels self)) in Hk' by done.
    destruct (PyListFacts.pop_at_norm _ _ _ Hfit Hk') as (l & Hl & ->). cbn.
    destruct (PyListFacts.pop_at_norm _ _ _ Hfit Hk) as (p & Hp & ->). cbn.
    split; [|apply zip_delete].
    rewrite !length_delete by (by eexists). by rewrite Hal.
  - rewrite PyListFacts.pop_at_None; [by split|done|].
    by rewrite <- (PyListFacts.norm_index_length (points self)).
Qed.

Lemma moveBy_steps offset self :
  aligned self →
  aligned (moveBy offset self)
  ∧ prompts (moveBy offset self) = exec_prompts (prompts self) (MoveBy offset).
Proof.
  unfold aligned, prompts, moveBy. intros Hal. cbn. split.
  - by rewrite length_fmap.
  - apply (zip_fmap_fst (λ p, padd p offset)).
Qed.

Lemma moveVertexBy_steps i offset self :
  aligned self →
  aligned (moveVertexBy i offset self).2
  ∧ prompts (moveVertexBy i offset self).2
    = exec_prompts (prompts self) (MoveVertexBy i offset).
Proof.
  unfold aligned, prompts, moveVertexBy. intros Hal. cbn [exec_prompts].
  rewrite <- (PyListFacts.norm_index_length (points self) (zip _ _))
    by (by rewrite length_zip, <- Hal, Nat.min_id).
  destruct (PyList.norm_index (points self) i) as [k|] eqn:Hk.
  - destruct (PyListFacts.getitem_norm _ _ _ Hk) as (p & Hp & ->).
    unfold PyList.setitem. rewrite Hk. cbn. split.
    + by rewrite length_insert.
    + by apply (zip_insert_alter (λ p, padd p offset)).
  - rewrite PyListFacts.getitem_None by done. by split.
Qed.

Lemma exec_steps o self :
  aligned self →
  aligned (exec self o) ∧ prompts (exec self o) = exec_prompts (prompts self) o.
Proof.
  destruct o; cbn [exec].
  - apply addPoint_steps.
  - apply popPoint_steps.
  - apply removePoint_steps.
  - apply moveBy_steps.
  - apply moveVertexBy_steps.
Qed.

Lemma run_steps (os : list (op (point:=point))) self :
  aligned self →
  aligned (run os self) ∧ prompts (run os self) = foldl exec_prompts (prompts self) os.
Proof.
  unfold run. revert self. induction os as [|o os IH]; intros self Hal; [done|].
  cbn [foldl]. destruct (exec_steps o self Hal) as [Hal' <-]. by apply IH.
Qed.
End Ops.
End MultipoinstFacts.

(** ** MultipoinstShape: the claims *)

(** C6, as the code has it. On a shape with points [popPoint] removes the
    last point and the last label, keeps every other field, and returns the
    last point, without its label; on a shape without points it returns
    [None] and changes nothing. *)
Theorem C6_popPoint_returns_last_point :
  ∀ (point : Type) (ops : PointOps point) (self : MultipoinstShape.t point),
    (MultipoinstShape.points self = [] →
       MultipoinstShape.popPoint self = (Ok None, self))
    ∧ (∀ ps p ls l,
         MultipoinstShape.points self = ps ++ [p] →
         MultipoinstShape.labels self = ls ++ [l] →
         MultipoinstShape.popPoint self
         = (Ok (Some p),
            MultipoinstShape.mk ps ls (MultipoinstShape.selected self)
                                (MultipoinstShape.other_data self)
                                (MultipoinstShape.closed self)
                                (MultipoinstShape.shape_type self))).
Proof.
  intros point ops self. split.
  - intros Hps. unfold MultipoinstShape.popPoint. by rewrite Hps.
  - intros ps p ls l Hps Hls. unfold MultipoinstShape.popPoint.
    rewrite Hls, PyListFacts.pop_snoc.
    cbn [MultipoinstShape.points MultipoinstShape.with_labels].
    rewrite Hps, PyListFacts.pop_snoc. by destruct ps.
Qed.

Lemma C6_witness :
  MultipoinstShape.popPoint Examples.prompt_neg
  = (Ok (Some (Examples.P 1 1)),
     MultipoinstShape.mk [] [] false [] false "multipoints").
Proof.
  apply (proj2 (C6_popPoint_returns_last_point _ _ Examples.prompt_neg)
               [] (Examples.P 1 1) [] false); reflexivity.
Defined.

(** C6 as stated fails: the value returned for a positive last point and
    for a negative one is the same, the point alone; the label is popped
    and dropped. *)
Lemma C6_counterexample :
  MultipoinstShape.labels Examples.prompt_pos = [true]
  ∧ MultipoinstShape.labels Examples.prompt_neg = [false]
  ∧ (MultipoinstShape.popPoint Examples.prompt_pos).1 = Ok (Some (Examples.P 1 1))
  ∧ (MultipoinstShape.popPoint Examples.prompt_neg).1 = Ok (Some (Examples.P 1 1)).
Proof. repeat split. Qed.

(** C7. A new shape has as many labels as points, and [addPoint],
    [popPoint], [removePoint], [moveBy] and [moveVertexBy], in any order and
    number, keep it so; each of them acts on the labelled points
    [(points[i], labels[i])] as one sequence, so that a label stays with its
    point. *)
Theorem C7_labels_follow_points :
  ∀ (point : Type) (ops : PointOps point)
    (os : list (MultipoinstShape.op (point:=point)))
    (self : MultipoinstShape.t point),
    MultipoinstShape.aligned (MultipoinstShape.init (point:=point))
    ∧ (MultipoinstShape.aligned self →
       MultipoinstShape.aligned (MultipoinstShape.run os self)
       ∧ MultipoinstShape.prompts (MultipoinstShape.run os self)
         = foldl MultipoinstShape.exec_prompts (MultipoinstShape.prompts self) os).
Proof.
  intros point ops os self. split; [reflexivity|].
  apply MultipoinstFacts.run_steps.
Qed.

Lemma C7_witness :
  let self :=
    MultipoinstShape.run
      [MultipoinstShape.AddPoint (Examples.P 1 1) true;
       MultipoinstShape.AddPoint (Examples.P 2 2) false;
       MultipoinstShape.RemovePoint 0]
      MultipoinstShape.init in
  MultipoinstShape.aligned self
  ∧ MultipoinstShape.points self = [Examples.P 2 2]
  ∧ MultipoinstShape.labels self = [false].
Proof.
  split; [|split; vm_compute; reflexivity].
  refine (proj1 (proj2 (C7_labels_follow_points _ _ _ MultipoinstShape.init) _)).
  reflexivity.
Defined.

(** ** Shape.nearestEdge: the scan *)

Module NearestEdgeFacts.
Section Scan.
Context {point : Type} `{PointOps point}.
Variable distancetoline : point → point * point → Qc.
Variable self : Shape.t point.
Variable pt : point.
Variable epsilon : Qc.

Local Abbreviation dist := (Shape.edge_distance distancetoline self pt).
Local Abbreviation n := (length (Shape.points self)).

(** Inside [range(len(points))] the two reads of the body succeed and give
    the edge of the spec. *)
Lemma body_reads (k : nat) :
  (k < n)%nat →
  ∃ a b, Shape.edge self k = Some (a, b)
         ∧ PyList.getitem (Shape.points self) (Z.of_nat k - 1) = Ok a
         ∧ PyList.getitem (Shape.points self) (Z.of_nat k) = Ok b.
Proof.
  intros Hk. unfold Shape.edge.
  destruct (lookup_lt_is_Some_2 (Shape.points self) k Hk) as [b Hb].
  rewrite Hb. cbn.
  assert (Hgb : PyList.getitem (Shape.points self) (Z.of_nat k) = Ok b).
  { apply PyListFacts.getitem_Ok. exists k.
    split; [by apply PyListFacts.norm_index_nonneg|done]. }
  destruct k as [|j].
  - destruct (list.last (Shape.points self)) as [a|] eqn:Ha.
    + exists a, b. repeat split; [|done].
      apply PyListFacts.getitem_Ok. exists (pred n). split.
      * unfold PyList.norm_index. rewrite decide_False by lia.
        rewrite decide_True by lia. f_equal. lia.
      * by rewrite <- last_lookup.
    + apply last_None in Ha. rewrite Ha in Hk. cbn in Hk. lia.
  - destruct (lookup_lt_is_Some_2 (Shape.points self) j) as [a Ha]; [lia|].
    rewrite Ha. exists a, b. repeat split; [|done].
    apply PyListFacts.getitem_Ok. exists j. split; [|done].
    replace (Z.of_nat (S j) - 1) with (Z.of_nat j) by lia.
    apply PyListFacts.norm_index_nonneg. lia.
Qed.

Lemma dist_defined (k : nat) : (k < n)%nat → ∃ d, dist k = Some d.
Proof.
  intros Hk. destruct (body_reads k Hk) as (a & b & He & _).
  unfold Shape.edge_distance. rewrite He. by eexists.
Qed.

Lemma dist_lt (k : nat) d : dist k = Some d → (k < n)%nat.
Proof.
  unfold Shape.edge_distance, Shape.edge.
  destruct (Shape.points self !! k) eqn:Hb; [|done].
  intros _. by eapply lookup_lt_Some.
Qed.

(** One turn of the loop keeps what [scanned] says. *)
Lemma body_scanned (k : nat) st :
  (k < n)%nat →
  Shape.scanned distancetoline self pt epsilon k st →
  ∃ st', Shape.nearestEdge_body distancetoline self pt epsilon st (Z.of_nat k)
         = Ok st'
         ∧ Shape.scanned distancetoline self pt epsilon (S k) st'.
Proof.
  intros Hk Hst. destruct (body_reads k Hk) as (a & b & He & Ha & Hb).
  unfold Shape.nearestEdge_body. rewrite Ha, Hb. cbn [res_bind].
  assert (Hdk : dist k = Some (distancetoline pt (a, b))).
  { unfold Shape.edge_distance. by rewrite He. }
  set (dk := distancetoline pt (a, b)) in *.
  assert (Hsame : ∀ j d', (j < S k)%nat → dist j = Some d' →
                          (j < k)%nat ∨ (j = k ∧ d' = dk)).
  { intros j d' Hj Hd'. destruct (decide (j = k)) as [->|]; [|left; lia].
    right. split; [done|]. congruence. }
  destruct st as [[m|] [i|]]; cbn in Hst; try done.
  - destruct Hst as (i0 & -> & Hi0 & Hdi & Hle & Hmin & Hfirst).
    cbn [fst Shape.lt_min].
    destruct (bool_decide (dk ≤ epsilon)%Qc) eqn:Hin; cbn [andb];
      [destruct (bool_decide (dk < m)%Qc) eqn:Hlt|].
    + apply bool_decide_eq_true in Hin, Hlt.
      eexists; split; [done|]. exists k.
      repeat split; [lia|done|done|..].
      * intros j d' Hj Hd' Hd'e.
        destruct (Hsame j d' Hj Hd') as [Hjk|[-> ->]]; [|apply Qcle_refl].
        apply Qclt_le_weak, Qclt_le_trans with m; eauto.
      * intros j d' Hj Hd' Hd'e.
        apply Qclt_le_trans with m; eauto.
    + apply bool_decide_eq_true in Hin. apply bool_decide_eq_false in Hlt.
      eexists; split; [done|]. exists i0.
      repeat split; [lia|done|done|..]; [|done].
      intros j d' Hj Hd' Hd'e.
      destruct (Hsame j d' Hj Hd') as [Hjk|[-> ->]]; [eauto|].
      by apply Qcnot_lt_le.
    + apply bool_decide_eq_false in Hin.
      eexists; split; [done|]. exists i0.
      repeat split; [lia|done|done|..]; [|done].
      intros j d' Hj Hd' Hd'e.
      destruct (Hsame j d' Hj Hd') as [Hjk|[-> ->]]; [eauto|done].
  - cbn [fst Shape.lt_min]. rewrite andb_true_r.
    destruct (bool_decide (dk ≤ epsilon)%Qc) eqn:Hin.
    + apply bool_decide_eq_true in Hin.
      eexists; split; [done|]. exists k.
      repeat split; [lia|done|done|..].
      * intros j d' Hj Hd' Hd'e.
        destruct (Hsame j d' Hj Hd') as [Hjk|[-> ->]]; [|apply Qcle_refl].
        by destruct (Hst j d').
      * intros j d' Hj Hd' Hd'e. by destruct (Hst j d').
    + apply bool_decide_eq_false in Hin.
      eexists; split; [done|]. cbn. intros j d' Hj Hd'.
      destruct (Hsame j d' Hj Hd') as [Hjk|[-> ->]]; [eauto|done].
Qed.

Lemma loop_scanned (m k : nat) st :
  (k + m = n)%nat →
  Shape.scanned distancetoline self pt epsilon k st →
  ∃ st', Shape.nearestEdge_loop distancetoline self pt epsilon
           (Z.of_nat <$> seq k m) st = Ok (snd st')
         ∧ Shape.scanned distancetoline self pt epsilon n st'.
Proof.
  revert k st. induction m as [|m IH]; intros k st Hkm Hst.
  - replace n with k by lia. by exists st.
  - cbn [seq fmap list_fmap Shape.nearestEdge_loop].
    destruct (body_scanned k st) as (st1 & -> & Hst1); [lia|done|].
    cbn [res_bind]. apply IH; [lia|done].
Qed.

(** What [nearestEdge] returns. *)
Lemma nearestEdge_scanned :
  ∃ st, Shape.nearestEdge distancetoline pt epsilon self = Ok (snd st)
        ∧ Shape.scanned distancetoline self pt epsilon n st.
Proof.
  unfold Shape.nearestEdge. apply loop_scanned; [lia|].
  cbn. intros j d Hj. lia.
Qed.
End Scan.

(** Two distances with the same square are the same. *)
Lemma Qc_square_inj (d e : Qc) :
  (Z2Qc 0 ≤ d)%Qc → (Z2Qc 0 ≤ e)%Qc → (d * d)%Qc = (e * e)%Qc → d = e.
Proof.
  assert (Hlt : ∀ x y : Qc, (Z2Qc 0 ≤ x)%Qc → (x < y)%Qc → (x * x < y * y)%Qc).
  { intros x y Hx Hxy.
    assert (Hy : (Z2Qc 0 < y)%Qc) by (by apply Qcle_lt_trans with x).
    apply Qcle_lt_trans with (y * x)%Qc.
    - apply Qcmult_le_compat_r; [by apply Qclt_le_weak|done].
    - rewrite (Qcmult_comm y x). by apply Qcmult_lt_compat_r. }
  intros Hd He Heq.
  destruct (Qclt_le_dec d e) as [Hde|Hed].
  { apply Hlt in Hde; [|done]. rewrite Heq in Hde.
    by apply Qclt_not_eq in Hde. }
  destruct (Qcle_lt_or_eq _ _ Hed) as [Hlt'|]; [|done].
  apply Hlt in Hlt'; [|done]. rewrite Heq in Hlt'.
  by apply Qclt_not_eq in Hlt'.
Qed.

(** The spec's two values of distanceToSegment, squared: segment
    [(0,0),(10,0)], point [(5,5)] at distance 5 and point [(-3,0)] at
    distance 3, the nearest point being an end of the segment. *)
Example sq_distancetoline_inside :
  Utils.sq_distancetoline (Examples.P 5 5) (Examples.P 0 0, Examples.P 10 0)
  = (Z2Qc 5 * Z2Qc 5)%Qc.
Proof. apply (bool_decide_unpack _). vm_compute. exact I. Qed.

Example sq_distancetoline_endpoint :
  Utils.sq_distancetoline (Examples.P (-3) 0) (Examples.P 0 0, Examples.P 10 0)
  = (Z2Qc 3 * Z2Qc 3)%Qc.
Proof. apply (bool_decide_unpack _). vm_compute. exact I. Qed.

Example sq_distancetoline_degenerate :
  Utils.sq_distancetoline (Examples.P 3 4) (Examples.P 0 0, Examples.P 0 0)
  = (Z2Qc 5 * Z2Qc 5)%Qc.
Proof. apply (bool_decide_unpack _). vm_compute. exact I. Qed.
End NearestEdgeFacts.

Module NearestEdgeSpec.
Section Spec.
Context {point : Type} `{PointOps point}.
Variable distancetoline : point → point * point → Qc.
Variable self : Shape.t point.
Variable pt : point.
Variable epsilon : Qc.

Local Abbreviation dist := (Shape.edge_distance distancetoline self pt).

(** [nearestEdge] never raises; it returns [None] exactly when no edge is
    within [epsilon], and otherwise the trailing index of an edge within
    [epsilon] that no edge is closer than, the first such edge. *)
Lemma nearestEdge_spec :
  ∃ r, Shape.nearestEdge distancetoline pt epsilon self = Ok r
    ∧ (r = None ↔ ∀ j d, dist j = Some d → ¬ (d ≤ epsilon)%Qc)
    ∧ (∀ i, r = Some i →
         ∃ (k : nat) d, i = Z.of_nat k ∧ dist k = Some d ∧ (d ≤ epsilon)%Qc
           ∧ (∀ j d', dist j = Some d' → (d ≤ d')%Qc)
           ∧ (∀ j d', (j < k)%nat → dist j = Some d' → (d < d')%Qc)).
Proof.
  destruct (NearestEdgeFacts.nearestEdge_scanned distancetoline self pt epsilon)
    as ([m r] & Hr & Hst).
  exists r. split; [done|]. cbn in Hst.
  destruct m as [m|], r as [i|]; try done.
  - destruct Hst as (i0 & -> & Hi0 & Hd & Hle & Hmin & Hfirst). split.
    + split; [done|]. intros Hnone. by destruct (Hnone i0 m).
    + intros i [= <-]. exists i0, m. repeat split; try done.
      * intros j d' Hd'.
        destruct (Qclt_le_dec epsilon d') as [Hout|Hin].
        -- apply Qclt_le_weak, Qcle_lt_trans with epsilon; done.
        -- apply (Hmin j d'); [|done..].
           by apply (NearestEdgeFacts.dist_lt distancetoline self pt j d').
      * intros j d' Hj Hd'.
        destruct (Qclt_le_dec epsilon d') as [Hout|Hin].
        -- by apply Qcle_lt_trans with epsilon.
        -- by apply (Hfirst j d').
  - split; [|done]. split; [|done]. intros _ j d Hd.
    apply (Hst j d); [|done].
    by apply (NearestEdgeFacts.dist_lt distancetoline self pt j d).
Qed.
End Spec.

(** A comparison of two given numbers that does not hold. *)
Ltac refute H :=
  exfalso;
  match type of H with
  | ?P =>
      let Hn := fresh in
      assert (bool_decide P = false) as Hn by (vm_compute; reflexivity);
      exact (bool_decide_eq_false_1 P Hn H)
  end.

(** The spec's example: the square ring [(0,0),(10,0),(10,10),(0,10)], the
    query [(5, 0.1)] and [epsilon = 5], with any [distancetoline] that gives
    the distance to the segment on the four edges of the ring. *)
Lemma nearestEdge_quad (distancetoline : qpoint → qpoint * qpoint → Qc) :
  (∀ j line, Shape.edge Examples.quad j = Some line →
     Utils.is_distancetoline (distancetoline Examples.query line)
                             Examples.query line) →
  Shape.nearestEdge distancetoline Examples.query (Z2Qc 5) Examples.quad
  = Ok (Some 1).
Proof.
  intros Hdl.
  assert (Hval : ∀ j line (v : Qc),
            Shape.edge Examples.quad j = Some line →
            bool_decide ((Z2Qc 0 ≤ v)%Qc
                         ∧ (v * v)%Qc = Utils.sq_distancetoline Examples.query line)
            = true →
            Shape.edge_distance distancetoline Examples.quad Examples.query j
            = Some v).
  { intros j line v He Hv. apply bool_decide_eq_true in Hv as [Hv0 Hvv].
    unfold Shape.edge_distance. rewrite He. cbn. f_equal.
    destruct (Hdl j line He) as [Hd0 Hdd].
    apply NearestEdgeFacts.Qc_square_inj; [done..|congruence]. }
  pose proof (Hval 0%nat _ (Z2Qc 5) eq_refl eq_refl) as H0.
  pose proof (Hval 1%nat _ (Z2Qc 1 / Z2Qc 10)%Qc eq_refl eq_refl) as H1.
  pose proof (Hval 2%nat _ (Z2Qc 5) eq_refl eq_refl) as H2.
  pose proof (Hval 3%nat _ (Z2Qc 99 / Z2Qc 10)%Qc eq_refl eq_refl) as H3.
  clear Hval Hdl.
  destruct (nearestEdge_spec distancetoline Examples.quad Examples.query (Z2Qc 5))
    as (r & -> & Hnone & Hsome).
  f_equal. destruct r as [i|].
  - destruct (Hsome i eq_refl) as (k & d & -> & Hd & Hle & Hmin & _).
    pose proof (NearestEdgeFacts.dist_lt _ _ _ _ _ Hd) as Hk. cbn in Hk.
    pose proof (Hmin 1%nat _ H1) as Hcmp.
    destruct k as [|[|[|[|k]]]]; [| done | | | lia].
    + rewrite H0 in Hd. injection Hd as <-.
      refute Hcmp.
    + rewrite H2 in Hd. injection Hd as <-.
      refute Hcmp.
    + rewrite H3 in Hd. injection Hd as <-.
      refute Hle.
  - destruct (proj1 Hnone eq_refl 1%nat _ H1).
    apply (bool_decide_unpack _). vm_compute. exact I.
Qed.
End NearestEdgeSpec.

(** C5. [nearestEdge(p, epsilon)] returns the trailing index of the closest
    edge, edge [i] going from [points[i-1]] (the last point for [i = 0]) to
    [points[i]], when that edge is within [epsilon], the first one among
    equally close edges; it returns [None] exactly when no edge is within
    [epsilon]. For the ring [(0,0),(10,0),(10,10),(0,10)], the query
    [(5, 0.1)] and [epsilon = 5] it returns 1. *)
Theorem C5_nearestEdge_closest_within_epsilon :
  (∀ (point : Type) (ops : PointOps point)
     (distancetoline : point → point * point → Qc)
     (self : Shape.t point) (pt : point) (epsilon : Qc),
     ∃ r, Shape.nearestEdge distancetoline pt epsilon self = Ok r
       ∧ (r = None ↔
          ∀ j d, Shape.edge_distance distancetoline self pt j = Some d →
                 ¬ (d ≤ epsilon)%Qc)
       ∧ (∀ i, r = Some i →
            ∃ (k : nat) d,
              i = Z.of_nat k
              ∧ Shape.edge_distance distancetoline self pt k = Some d
              ∧ (d ≤ epsilon)%Qc
              ∧ (∀ j d', Shape.edge_distance distancetoline self pt j = Some d' →
                         (d ≤ d')%Qc)
              ∧ (∀ j d', (j < k)%nat →
                         Shape.edge_distance distancetoline self pt j = Some d' →
                         (d < d')%Qc)))
  ∧ (∀ distancetoline : qpoint → qpoint * qpoint → Qc,
       (∀ j line, Shape.edge Examples.quad j = Some line →
          Utils.is_distancetoline (distancetoline Examples.query line)
                                  Examples.query line) →
       Shape.nearestEdge distancetoline Examples.query (Z2Qc 5) Examples.quad
       = Ok (Some 1)).
Proof.
  split.
  - intros. apply NearestEdgeSpec.nearestEdge_spec.
  - apply NearestEdgeSpec.nearestEdge_quad.
Qed.

Lemma C5_witness :
  Shape.nearestEdge Examples.axis_distance Examples.query (Z2Qc 5) Examples.quad
  = Ok (Some 1).
Proof.
  apply (proj2 C5_nearestEdge_closest_within_epsilon Examples.axis_distance).
  intros j line He.
  destruct j as [|[|[|[|j]]]]; cbn in He; try discriminate He;
    injection He as <-; apply (bool_decide_unpack _); vm_compute; exact I.
Defined.

(** ** MaskShape.toPolygons against the spec's description *)

Module ToPolygonsFacts.
Import MaskShape.

Section Refinement.
Context {ops : PointOps qpoint}.
Variable approxPolyDP : contour → Qc → bool → contour.
Variable self : MaskShape.t.
Variable contours : list contour.
Variable hierarchy : list hrow.
Variable epsilon : Qc.

Local Abbreviation step := (λ ring hole,
  if long_enough self hole
  then take 2 ring ++ spec_closed_ring approxPolyDP self epsilon hole ++ drop 1 ring
  else ring).

(** The inner loop folds the splice over the sibling chain of the child. *)
Lemma child_loop_siblings fuel idx ring :
  child_loop approxPolyDP self contours hierarchy epsilon fuel idx ring
  = match siblings contours hierarchy fuel idx with
    | None => None
    | Some r => Some (res_map (foldl step ring) r)
    end.
Proof.
  revert idx ring. induction fuel as [|fuel IH]; intros idx ring; cbn.
  { by case_decide. }
  case_decide; [done|].
  destruct (PyList.getitem hierarchy idx) as [[[[next prev] child] parent]|e]; [|done].
  destruct (PyList.getitem contours idx) as [c|e]; [|done].
  rewrite IH. cbn.
  destruct (siblings contours hierarchy fuel next) as [[rest|e]|]; done.
Qed.

Lemma shape_of_ring_Ok ring :
  shape_of_ring (ops:=ops) self ring = Ok (spec_polygon (ops:=ops) self ring).
Proof.
  unfold shape_of_ring. rewrite ShapeFacts.init_valid; [done|].
  apply (bool_decide_unpack _). vm_compute. exact I.
Qed.

Lemma spec_surviving_cons ring rings :
  spec_surviving (ring :: rings)
  = if bool_decide (length ring < 5)%nat then spec_surviving rings
    else ring :: spec_surviving rings.
Proof.
  unfold spec_surviving. rewrite filter_cons.
  case_decide; case_bool_decide; (done || lia).
Qed.

(** The outer loop appends the polygons of the surviving rings of the
    forest. *)
Lemma outer_loop_forest cfuel fuel idx shapes :
  outer_loop (ops:=ops) approxPolyDP self contours hierarchy epsilon
             cfuel fuel idx shapes
  = match forest contours hierarchy cfuel fuel idx with
    | None => None
    | Some r =>
        Some (res_map
                (λ f, shapes ++ (spec_polygon (ops:=ops) self
                                   <$> spec_surviving
                                         (spec_ring approxPolyDP self epsilon <$> f)))
                r)
    end.
Proof.
  revert idx shapes. induction fuel as [|fuel IH]; intros idx shapes; cbn.
  { case_decide; [|done]. cbn. by rewrite app_nil_r. }
  case_decide. { cbn. by rewrite app_nil_r. }
  destruct (PyList.getitem hierarchy idx) as [[[[next prev] child] parent]|e]; [|done].
  destruct (PyList.getitem contours idx) as [c|e]; [|done].
  rewrite child_loop_siblings. cbn.
  destruct (siblings contours hierarchy cfuel child) as [[holes|e]|]; [|done..].
  cbn [res_map res_bind].
  change (foldl _ _ holes) with (spec_ring approxPolyDP self epsilon (c, holes)).
  set (ring := spec_ring approxPolyDP self epsilon (c, holes)).
  destruct (bool_decide (length ring < 5)%nat) eqn:Hshort.
  - rewrite IH.
    destruct (forest contours hierarchy cfuel fuel next) as [[rest|e]|]; [|done..].
    unfold res_map, res_bind. rewrite fmap_cons. fold ring.
    by rewrite spec_surviving_cons, Hshort.
  - rewrite shape_of_ring_Ok, IH.
    destruct (forest contours hierarchy cfuel fuel next) as [[rest|e]|]; [|done..].
    unfold res_map, res_bind. rewrite fmap_cons. fold ring.
    rewrite spec_surviving_cons, Hshort. by rewrite <- app_assoc.
Qed.

Lemma toPolygons_toRings fuel :
  toPolygons (ops:=ops) approxPolyDP self contours hierarchy epsilon fuel
  = match toRings approxPolyDP self contours hierarchy epsilon fuel with
    | None => None
    | Some r => Some (res_map (fmap (spec_polygon (ops:=ops) self)) r)
    end.
Proof.
  unfold toPolygons, toRings. case_bool_decide; [done|].
  rewrite outer_loop_forest.
  by destruct (forest contours hierarchy fuel fuel 0) as [[f|e]|].
Qed.
End Refinement.
End ToPolygonsFacts.

(** ** MaskShape.toPolygons returns on the hierarchies of OpenCV *)

Module ToPolygonsTermination.
Import MaskShape.

Section Termination.
Variable contours : list contour.
Variable hierarchy : list hrow.
Hypothesis Hforward : forward_links hierarchy = true.
Hypothesis Hlen : length contours = length hierarchy.

Local Abbreviation n := (Z.of_nat (length hierarchy)).

Lemma forward_row (i : nat) (row : hrow) :
  hierarchy !! i = Some row →
  (row.1.1.1 = -1 ∨ Z.of_nat i < row.1.1.1 < n)
  ∧ (row.1.2 = -1 ∨ Z.of_nat i < row.1.2 < n).
Proof.
  intros Hrow. unfold forward_links in Hforward.
  rewrite forallb_forall in Hforward.
  assert (Hin : In (i, row) (imap pair hierarchy)).
  { apply list_elem_of_In. by apply (elem_of_lookup_imap_2 pair). }
  apply Hforward in Hin. cbn in Hin.
  apply andb_true_iff in Hin as [H1 H2].
  unfold forward_link in H1, H2.
  by apply bool_decide_eq_true in H1, H2.
Qed.

(** Inside the hierarchy both reads of a loop turn succeed. *)
Lemma reads_Ok (idx : Z) :
  0 ≤ idx < n →
  ∃ row c, PyList.getitem hierarchy idx = Ok row
           ∧ PyList.getitem contours idx = Ok c
           ∧ hierarchy !! Z.to_nat idx = Some row.
Proof.
  intros Hidx.
  assert (Hk : PyList.norm_index hierarchy idx = Some (Z.to_nat idx)).
  { unfold PyList.norm_index. by rewrite decide_True. }
  destruct (PyListFacts.getitem_norm _ _ _ Hk) as (row & Hrow & Hg).
  rewrite <- (PyListFacts.norm_index_length contours) in Hk by done.
  destruct (PyListFacts.getitem_norm _ _ _ Hk) as (c & _ & Hc).
  by exists row, c.
Qed.

Lemma siblings_total (fuel : nat) (idx : Z) :
  within hierarchy fuel idx → ∃ cs, siblings contours hierarchy fuel idx = Some (Ok cs).
Proof.
  revert idx. induction fuel as [|fuel IH]; intros idx [->|[Hidx Hfuel]];
    cbn; try (by eexists); try lia.
  case_decide; [by eexists|].
  destruct (reads_Ok idx Hidx) as (row & c & -> & -> & Hrow).
  destruct (forward_row _ _ Hrow) as [Hnext _].
  destruct (IH row.1.1.1) as [cs ->]; [|by eexists].
  unfold within. lia.
Qed.

Lemma forest_total (cfuel fuel : nat) (idx : Z) :
  (length hierarchy ≤ cfuel)%nat →
  within hierarchy fuel idx → ∃ f, forest contours hierarchy cfuel fuel idx = Some (Ok f).
Proof.
  intros Hcfuel. revert idx.
  induction fuel as [|fuel IH]; intros idx [->|[Hidx Hfuel]];
    cbn; try (by eexists); try lia.
  case_decide; [by eexists|].
  destruct (reads_Ok idx Hidx) as (row & c & -> & -> & Hrow).
  destruct (forward_row _ _ Hrow) as [Hnext Hchild].
  destruct (siblings_total cfuel row.1.2) as [holes ->].
  { unfold within. lia. }
  destruct (IH row.1.1.1) as [f ->]; [|by eexists].
  unfold within. lia.
Qed.
End Termination.

(** With the number of contours as fuel, [toPolygons] returns shapes. *)
Lemma toPolygons_total (ops : PointOps qpoint)
    approxPolyDP self contours hierarchy epsilon :
  forward_links hierarchy = true →
  length contours = length hierarchy →
  ∃ shapes, toPolygons (ops:=ops) approxPolyDP self contours hierarchy epsilon
                       (length contours) = Some (Ok shapes).
Proof.
  intros Hforward Hlen. rewrite ToPolygonsFacts.toPolygons_toRings.
  unfold toRings. case_bool_decide; [by eexists|].
  destruct (forest_total contours hierarchy Hforward Hlen
              (length contours) (length contours) 0) as [f ->].
  - lia.
  - right. lia.
  - by eexists.
Qed.
End ToPolygonsTermination.

(** ** Rings, and the shapes made from them *)

Module RingFacts.
Import MaskShape.

Section AddPoints.
Context {point : Type} `{PointOps point}.

(** Feeding points to [addPoint], on a shape that has a first point [p]:
    the points that [==] tells from [p] are appended, the others close the
    shape. *)
Lemma foldl_addPoint (p : point) (rest ps : list point) (self : Shape.t point) :
  Shape.points self = p :: ps →
  Shape.points (foldl (λ shape q, Shape.addPoint q shape) self rest)
  = p :: ps ++ filter (λ q, point_eqb q p = false) rest
  ∧ Shape.closed (foldl (λ shape q, Shape.addPoint q shape) self rest)
    = Shape.closed self || existsb (λ q, point_eqb q p) rest.
Proof.
  revert ps self. induction rest as [|q rest IH]; intros ps self Hps.
  { cbn. rewrite app_nil_r, orb_false_r. done. }
  cbn [foldl existsb]. destruct (point_eqb q p) eqn:Hq.
  - rewrite ShapeFacts.addPoint_first by (by rewrite Hps).
    destruct (IH ps (Shape.with_closed self true) Hps) as [-> ->].
    rewrite filter_cons_False by (by rewrite Hq). split; [done|].
    cbn. by rewrite orb_true_r.
  - rewrite ShapeFacts.addPoint_other by (by rewrite Hps).
    destruct (IH (ps ++ [q]) (Shape.with_points self (Shape.points self ++ [q])))
      as [-> ->].
    { cbn. by rewrite Hps. }
    rewrite filter_cons_True by done. by rewrite <- app_assoc.
Qed.

Lemma filter_all (p : point) (mid : list point) :
  Forall (λ q, point_eqb q p = false) mid →
  filter (λ q, point_eqb q p = false) mid = mid.
Proof.
  induction 1 as [|q mid Hq _ IH]; [done|].
  rewrite filter_cons_True by done. by rewrite IH.
Qed.

Lemma filter_told (p : point) (mid : list point) :
  Forall (λ q, point_eqb q p = false) (filter (λ q, point_eqb q p = false) mid).
Proof.
  apply list.Forall_forall. intros q Hq.
  by apply list_elem_of_filter in Hq as [Hq _].
Qed.

Lemma told_not_elem (p : point) (l : list point) :
  Forall (λ q, point_eqb q p = false) l → p ∉ l.
Proof.
  rewrite list.Forall_forall. intros Hl Hp. apply Hl in Hp.
  by rewrite point_eqb_refl in Hp.
Qed.
End AddPoints.

Section Rings.
Context {ops : PointOps qpoint}.

Lemma spec_polygon_cons self (p : qpoint) (rest : list qpoint) :
  Shape.points (spec_polygon (ops:=ops) self (p :: rest))
  = p :: filter (λ q, point_eqb q p = false) rest
  ∧ Shape.closed (spec_polygon (ops:=ops) self (p :: rest))
    = existsb (λ q, point_eqb q p) rest.
Proof.
  unfold spec_polygon. cbn [foldl].
  set (blank := Shape.mk _ _ _ _ _ _ _ _ _ _ _ _ _).
  change (Shape.addPoint p blank) with (Shape.with_points blank [p]).
  by destruct (foldl_addPoint p rest [] (Shape.with_points blank [p]) eq_refl)
    as [-> ->].
Qed.

(** The shape of a ring [p :: mid ++ [p]]. *)
Lemma spec_polygon_ring self (p : qpoint) (mid : list qpoint) :
  Shape.isClosed (spec_polygon (ops:=ops) self (p :: mid ++ [p])) = true
  ∧ Shape.points (spec_polygon (ops:=ops) self (p :: mid ++ [p]))
    = p :: filter (λ q, point_eqb q p = false) mid
  ∧ Forall (λ q, point_eqb q p = false)
           (tail (Shape.points (spec_polygon (ops:=ops) self (p :: mid ++ [p]))))
  ∧ (p ∉ tail (Shape.points (spec_polygon (ops:=ops) self (p :: mid ++ [p]))))
  ∧ (Forall (λ q, point_eqb q p = false) mid →
     Shape.points (spec_polygon (ops:=ops) self (p :: mid ++ [p]))
     = removelast (p :: mid ++ [p])).
Proof.
  destruct (spec_polygon_cons self p (mid ++ [p])) as [Hps Hcl].
  unfold Shape.isClosed. rewrite Hps, Hcl.
  rewrite list.filter_app, filter_cons_False, filter_nil, app_nil_r
    by (by rewrite point_eqb_refl).
  split; [|split; [done|split; [|split]]].
  - rewrite existsb_app. cbn. by rewrite point_eqb_refl, orb_true_r.
  - apply filter_told.
  - apply told_not_elem, filter_told.
  - intros Hp. rewrite app_comm_cons, removelast_last. f_equal.
    by apply filter_all.
Qed.

(** The shapes of the surviving rings. *)
Lemma surviving_polygons self (rings : list (list qpoint)) :
  Forall ringlike rings →
  Forall2 (λ ring shape,
             ∃ p mid, ring = p :: mid ++ [p]
               ∧ Shape.isClosed shape = true
               ∧ Shape.points shape = p :: filter (λ q, point_eqb q p = false) mid
               ∧ Forall (λ q, point_eqb q p = false) (tail (Shape.points shape))
               ∧ (p ∉ tail (Shape.points shape))
               ∧ (Forall (λ q, point_eqb q p = false) mid →
                  Shape.points shape = removelast ring))
          (spec_surviving rings)
          (spec_polygon (ops:=ops) self <$> spec_surviving rings).
Proof.
  intros Hrings. apply Forall2_fmap_r, Forall_Forall2_diag.
  unfold spec_surviving. apply list.Forall_forall. intros ring Hin.
  apply list_elem_of_filter in Hin as [Hlen Hin].
  rewrite list.Forall_forall in Hrings.
  destruct (Hrings ring Hin) as [->|(p & mid & ->)]; [cbn in Hlen; lia|].
  exists p, mid. split; [done|]. apply spec_polygon_ring.
Qed.
End Rings.

Lemma close_ring_ringlike (c : list qpoint) : ringlike (close_ring c).
Proof.
  destruct c as [|p c]; [by left|]. right. exists p, c. done.
Qed.

Lemma splice_ringlike (ring hole : list qpoint) :
  ringlike ring → ringlike hole → ringlike (take 2 ring ++ hole ++ drop 1 ring).
Proof.
  intros [->|(p & mid & ->)] Hhole.
  - cbn. by rewrite app_nil_r.
  - right. exists p, (take 1 (mid ++ [p]) ++ hole ++ mid).
    cbn. by rewrite <- !app_assoc.
Qed.

Lemma spec_ring_ringlike approxPolyDP self epsilon outer_holes :
  ringlike (spec_ring approxPolyDP self epsilon outer_holes).
Proof.
  unfold spec_ring. destruct outer_holes as [outer holes]. cbn [fst snd].
  assert (Hstart : ringlike (spec_closed_ring approxPolyDP self epsilon outer))
    by apply close_ring_ringlike.
  revert Hstart. generalize (spec_closed_ring approxPolyDP self epsilon outer).
  induction holes as [|hole holes IH]; intros ring Hring; [done|].
  cbn [foldl]. apply IH. destruct (long_enough self hole); [|done].
  apply splice_ringlike; [done|]. apply close_ring_ringlike.
Qed.
End RingFacts.

(** ** MaskShape.toPolygons: the claims *)

(** C1. For a mask of scale other than 0, [toPolygons] walks the outer
    contours in sibling order from index 0. The ring of an outer contour is
    its simplified contour with every coordinate divided by the scale and
    the first point appended; every hole of at least [10/scale] contour
    points is simplified, divided and closed the same way and spliced into
    the ring built so far as [ring[0:2] + hole + ring[1:]]; smaller holes
    are skipped. A ring of fewer than 5 points gives no shape, every other
    ring gives the polygon that [addPoint] makes of its points, in order.
    On a hierarchy whose links point forward the call returns. *)
Theorem C1_holes_spliced_short_rings_dropped :
  ∀ (ops : PointOps qpoint)
    (approxPolyDP : MaskShape.contour → Qc → bool → MaskShape.contour)
    (self : MaskShape.t) (contours : list MaskShape.contour)
    (hierarchy : list MaskShape.hrow) (epsilon : Qc),
    MaskShape.scale self ≠ Z2Qc 0 →
    (contours = [] →
       ∀ fuel, MaskShape.toPolygons (ops:=ops) approxPolyDP self contours
                                    hierarchy epsilon fuel
               = Some (Ok []))
    ∧ (∀ fuel f,
         contours ≠ [] →
         MaskShape.forest contours hierarchy fuel fuel 0 = Some (Ok f) →
         MaskShape.toPolygons (ops:=ops) approxPolyDP self contours hierarchy
                              epsilon fuel
         = Some (Ok ((λ ring,
                        foldl (λ shape p, Shape.addPoint p shape)
                              (Shape.mk (MaskShape.label self)
                                        (MaskShape.group_id self) [] false false
                                        "polygon" (MaskShape.flags self)
                                        (MaskShape.description self) [] None
                                        Shape.NEAR_VERTEX false None)
                              ring)
                       <$> filter (λ ring, 5 ≤ length ring)%nat
                             (MaskShape.spec_ring approxPolyDP self epsilon <$> f))))
    ∧ (∀ outer,
         MaskShape.spec_ring approxPolyDP self epsilon (outer, [])
         = let c := (λ xy : Z * Z,
                       ((Z2Qc xy.1 / MaskShape.scale self)%Qc,
                        (Z2Qc xy.2 / MaskShape.scale self)%Qc))
                    <$> approxPolyDP outer epsilon true in
           c ++ take 1 c)
    ∧ (∀ outer holes hole,
         MaskShape.spec_ring approxPolyDP self epsilon (outer, holes ++ [hole])
         = let ring := MaskShape.spec_ring approxPolyDP self epsilon (outer, holes) in
           let h := (λ xy : Z * Z,
                       ((Z2Qc xy.1 / MaskShape.scale self)%Qc,
                        (Z2Qc xy.2 / MaskShape.scale self)%Qc))
                    <$> approxPolyDP hole epsilon true in
           if bool_decide (Z2Qc 10 / MaskShape.scale self
                           ≤ Z2Qc (Z.of_nat (length hole)))%Qc
           then take 2 ring ++ (h ++ take 1 h) ++ drop 1 ring
           else ring)
    ∧ (MaskShape.forward_links hierarchy = true →
       length contours = length hierarchy →
       ∃ shapes,
         MaskShape.toPolygons (ops:=ops) approxPolyDP self contours hierarchy
                              epsilon (length contours) = Some (Ok shapes)).
Proof.
  intros ops approxPolyDP self contours hierarchy epsilon Hscale.
  split; [|split; [|split; [|split]]].
  - intros -> fuel. reflexivity.
  - intros fuel f Hne Hf. rewrite ToPolygonsFacts.toPolygons_toRings.
    unfold MaskShape.toRings. rewrite bool_decide_eq_false_2.
    + by rewrite Hf.
    + by destruct contours.
  - reflexivity.
  - intros outer holes hole. unfold MaskShape.spec_ring. cbn [fst snd].
    by rewrite foldl_snoc.
  - apply ToPolygonsTermination.toPolygons_total.
Qed.

Lemma C1_witness :
  MaskShape.toPolygons Examples.keep_all Examples.mask1 Examples.frame_contours
                       Examples.frame_hierarchy (Z2Qc 1) 3
  = Some (Ok ((λ ring,
                 foldl (λ shape p, Shape.addPoint p shape)
                       (Shape.mk (Some "cell"%string) None [] false false
                                 "polygon" None None [] None
                                 Shape.NEAR_VERTEX false None)
                       ring)
                <$> filter (λ ring, 5 ≤ length ring)%nat
                      (MaskShape.spec_ring Examples.keep_all Examples.mask1 (Z2Qc 1)
                         <$> [([(0, 0); (0, 19); (19, 19); (19, 0)],
                               [[(5, 5); (6, 5); (7, 5); (8, 5); (8, 6); (8, 7);
                                 (8, 8); (7, 8); (6, 8); (5, 8); (5, 7); (5, 6)];
                                [(12, 12); (13, 12); (13, 13); (12, 13)]])]))).
Proof.
  assert (Hscale : MaskShape.scale Examples.mask1 ≠ Z2Qc 0).
  { apply (bool_decide_unpack _). vm_compute. exact I. }
  apply (proj1 (proj2 (C1_holes_spliced_short_rings_dropped
                         _ Examples.keep_all Examples.mask1 Examples.frame_contours
                         Examples.frame_hierarchy (Z2Qc 1) Hscale))).
  - discriminate.
  - vm_compute. reflexivity.
Defined.

(** C10, as the code has it. Every shape [toPolygons] returns is closed, and
    from its second point on it holds no point that [==] takes for its
    first, so it does not end with a repeat of the first point: [addPoint]
    takes every later ring point that [==] takes for the first one as a
    closing click, the closing duplicate and any other. The shape holds the
    first point of its ring followed by the later ring points that [==]
    tells from it; that is the ring without its final duplicate when no
    other point inside the ring is taken for the first. *)
Theorem C10_polygons_closed_first_point_once :
  ∀ (ops : PointOps qpoint)
    (approxPolyDP : MaskShape.contour → Qc → bool → MaskShape.contour)
    (self : MaskShape.t) (contours : list MaskShape.contour)
    (hierarchy : list MaskShape.hrow) (epsilon : Qc) (fuel : nat)
    (shapes : list (Shape.t qpoint)),
    MaskShape.scale self ≠ Z2Qc 0 →
    MaskShape.toPolygons (ops:=ops) approxPolyDP self contours hierarchy
                         epsilon fuel
    = Some (Ok shapes) →
    ∃ rings,
      MaskShape.toRings approxPolyDP self contours hierarchy epsilon fuel
      = Some (Ok rings)
      ∧ Forall2 (λ ring shape,
                   ∃ p mid, ring = p :: mid ++ [p]
                     ∧ Shape.isClosed shape = true
                     ∧ Shape.points shape
                       = p :: filter (λ q, point_eqb q p = false) mid
                     ∧ Forall (λ q, point_eqb q p = false)
                              (tail (Shape.points shape))
                     ∧ (p ∉ tail (Shape.points shape))
                     ∧ (Forall (λ q, point_eqb q p = false) mid →
                        Shape.points shape = removelast ring))
                rings shapes.
Proof.
  intros ops approxPolyDP self contours hierarchy epsilon fuel shapes Hscale.
  rewrite ToPolygonsFacts.toPolygons_toRings. unfold MaskShape.toRings.
  case_bool_decide.
  { intros [= <-]. exists []. split; [done|]. constructor. }
  destruct (MaskShape.forest contours hierarchy fuel fuel 0) as [[f|e]|];
    [|done..].
  cbn. intros [= <-]. eexists. split; [done|].
  apply RingFacts.surviving_polygons.
  apply Forall_fmap, list.Forall_forall. intros outer_holes _.
  apply RingFacts.spec_ring_ringlike.
Qed.

Lemma C10_witness :
  ∃ rings,
    MaskShape.toRings Examples.keep_all Examples.mask1 Examples.frame_contours
                      Examples.frame_hierarchy (Z2Qc 1) 3 = Some (Ok rings)
    ∧ Forall2 (λ ring shape,
                 ∃ p mid, ring = p :: mid ++ [p]
                   ∧ Shape.isClosed shape = true
                   ∧ Shape.points shape
                     = p :: filter (λ q, point_eqb q p = false) mid
                   ∧ Forall (λ q, point_eqb q p = false)
                            (tail (Shape.points shape))
                   ∧ (p ∉ tail (Shape.points shape))
                   ∧ (Forall (λ q, point_eqb q p = false) mid →
                      Shape.points shape = removelast ring))
              rings
              (MaskShape.spec_polygon Examples.mask1
                 <$> filter (λ ring, 5 ≤ length ring)%nat
                       (MaskShape.spec_ring Examples.keep_all Examples.mask1 (Z2Qc 1)
                          <$> [([(0, 0); (0, 19); (19, 19); (19, 0)],
                                [[(5, 5); (6, 5); (7, 5); (8, 5); (8, 6); (8, 7);
                                  (8, 8); (7, 8); (6, 8); (5, 8); (5, 7); (5, 6)];
                                 [(12, 12); (13, 12); (13, 13); (12, 13)]])])).
Proof.
  assert (Hscale : MaskShape.scale Examples.mask1 ≠ Z2Qc 0).
  { apply (bool_decide_unpack _). vm_compute. exact I. }
  apply (C10_polygons_closed_first_point_once
           _ Examples.keep_all Examples.mask1 Examples.frame_contours
           Examples.frame_hierarchy (Z2Qc 1) 3 _ Hscale).
  rewrite ToPolygonsFacts.toPolygons_toRings. vm_compute. reflexivity.
Defined.

(** C10 as stated fails where it has the shape hold the ring without its
    final duplicate. For the one pixel wide outline of a diamond
    [approxPolyDP] keeps the four corners of the outer contour and of the
    hole, both from the pixel [(3, 0)] on; the hole is spliced in with the
    point the ring starts at, at both ends, and [addPoint] takes that point
    as a closing click each time: the ring has 11 points, the shape is
    closed and holds 8, the ring without its final duplicate 10. *)
Lemma C10_counterexample :
  MaskShape.toRings Examples.diamond_approx Examples.mask1
                    Examples.diamond_contours Examples.diamond_hierarchy
                    (Z2Qc 1) 2
  = Some (Ok [Examples.diamond_ring])
  ∧ option_map (res_map (fmap (λ shape, (Shape.isClosed shape, Shape.points shape))))
      (MaskShape.toPolygons Examples.diamond_approx Examples.mask1
         Examples.diamond_contours Examples.diamond_hierarchy (Z2Qc 1) 2)
    = Some (Ok [(true, Examples.diamond_points)])
  ∧ length Examples.diamond_ring = 11%nat
  ∧ length Examples.diamond_points = 8%nat
  ∧ Examples.diamond_points ≠ removelast Examples.diamond_ring.
Proof.
  split; [vm_compute; reflexivity|]. split; [vm_compute; reflexivity|].
  split; [reflexivity|]. split; [reflexivity|].
  intros Heq. apply (f_equal length) in Heq. vm_compute in Heq.
  discriminate Heq.
Qed.

(** * Beyond the claims *)

(** ** Shape: the point list *)

Module ShapeListFacts.
Section ShapeListFacts.
Context {point : Type} `{PointOps point}.
Implicit Types (self : Shape.t point) (p : point).

Lemma with_points_id self ps :
  Shape.with_points (Shape.with_points self ps) (Shape.points self) = self.
Proof. by destruct self. Qed.

Lemma popPoint_snoc self ps p :
  Shape.points self = ps ++ [p] →
  Shape.popPoint self = (Some p, Shape.with_points self ps).
Proof.
  intros Hps. unfold Shape.popPoint. rewrite Hps, PyListFacts.pop_snoc.
  by destruct ps.
Qed.

(** Where [list.insert] puts the new element. *)
Lemma insert_at_cases {A} (l : list A) (i : Z) (v : A) :
  ∃ k : nat,
    PyList.insert_at l i v = take k l ++ v :: drop k l
    ∧ (k ≤ length l)%nat
    ∧ (0 ≤ i ≤ Z.of_nat (length l) → k = Z.to_nat i)
    ∧ (Z.of_nat (length l) ≤ i → k = length l)
    ∧ (- Z.of_nat (length l) ≤ i < 0 → k = Z.to_nat (Z.of_nat (length l) + i))
    ∧ (i ≤ - Z.of_nat (length l) → k = 0%nat).
Proof.
  unfold PyList.insert_at.
  set (k := Z.to_nat (if decide (i < 0) then _ else _)).
  exists k. split; [done|]. subst k. case_decide; repeat split; intros; lia.
Qed.

Lemma delete_inserted {A} (l : list A) (k : nat) (v : A) :
  (k ≤ length l)%nat →
  (take k l ++ v :: drop k l) !! k = Some v
  ∧ delete k (take k l ++ v :: drop k l) = l.
Proof.
  intros Hk. assert (Hlen : length (take k l) = k) by (rewrite length_take; lia).
  split.
  - rewrite lookup_app_r by lia. by rewrite Hlen, Nat.sub_diag.
  - rewrite delete_take_drop.
    rewrite take_app_le, take_take, Nat.min_id by lia.
    rewrite drop_app_ge by lia. rewrite Hlen.
    replace (S k - k)%nat with 1%nat by lia. cbn.
    rewrite drop_0. apply take_drop.
Qed.
End ShapeListFacts.
End ShapeListFacts.

(** X1. [popPoint] takes back what [addPoint] appended, and returns it. When
    [==] takes the point added for the first point of the shape nothing was
    appended, and [popPoint] removes the last vertex of the now closed
    shape, the only one if there is no other. *)
Theorem X1_popPoint_after_addPoint :
  ∀ (point : Type) (ops : PointOps point) (self : Shape.t point) (p : point),
    ((Shape.points self = []
      ∨ ∃ p0 rest, Shape.points self = p0 :: rest ∧ point_eqb p p0 = false) →
       Shape.popPoint (Shape.addPoint p self) = (Some p, self))
    ∧ (∀ p0 rest, Shape.points self = p0 :: rest → point_eqb p p0 = true →
         Shape.popPoint (Shape.addPoint p self)
         = (list.last (p0 :: rest),
            Shape.mk (Shape.label self) (Shape.group_id self)
                     (removelast (p0 :: rest)) (Shape.fill self)
                     (Shape.selected self) (Shape.shape_type self)
                     (Shape.flags self) (Shape.description self)
                     (Shape.other_data self) (Shape.highlightIndex self)
                     (Shape.highlightMode self) true (Shape.line_color self))).
Proof.
  intros point ops self p. split.
  - intros Hp. rewrite ShapeFacts.addPoint_other.
    + erewrite ShapeListFacts.popPoint_snoc by reflexivity.
      f_equal. apply ShapeListFacts.with_points_id.
    + destruct Hp as [->|(p0 & rest & -> & Hne)]; done.
  - intros p0 rest Hps Heq.
    rewrite ShapeFacts.addPoint_first by (by rewrite Hps).
    unfold Shape.popPoint, PyList.pop. cbn [Shape.points Shape.with_closed].
    rewrite Hps. destruct (list.last (p0 :: rest)) as [q|] eqn:Hlast; [done|].
    by apply last_None in Hlast.
Qed.

Lemma X1_witness :
  Shape.popPoint (Shape.addPoint (Examples.P 7 7) Examples.tri)
  = (Some (Examples.P 7 7), Examples.tri)
  ∧ Shape.popPoint (Shape.addPoint (Examples.P 0 0) Examples.tri)
    = (Some (Examples.P 10 10),
       Shape.mk None None [Examples.P 0 0; Examples.P 10 0] false false
                "polygon" None None [] None Shape.NEAR_VERTEX true None).
Proof.
  split.
  - apply (proj1 (X1_popPoint_after_addPoint _ _ Examples.tri (Examples.P 7 7))).
    right. exists (Examples.P 0 0), [Examples.P 10 0; Examples.P 10 10].
    split; vm_compute; reflexivity.
  - apply (proj2 (X1_popPoint_after_addPoint _ _ Examples.tri (Examples.P 0 0))
                 (Examples.P 0 0) [Examples.P 10 0; Examples.P 10 10]);
      vm_compute; reflexivity.
Defined.

(** X2. [insertPoint] with an index that does not fit [Py_ssize_t] raises
    [OverflowError] and changes nothing. With any other index it succeeds
    and changes the points only: an index in [0 .. len] is the position of
    the new point, an index above [len] appends it, a negative index counts
    from the end and one below [-len] prepends it. Taking the new point out
    again leaves the points as they were. *)
Theorem X2_insertPoint_position :
  ∀ (point : Type) (ops : PointOps point) (self : Shape.t point)
    (i : Z) (p : point),
    let ps := Shape.points self in
    let n := Z.of_nat (length ps) in
    (¬ (- 2 ^ 63 ≤ i < 2 ^ 63) →
       Shape.insertPoint i p self = (Raise OverflowError, self))
    ∧ (- 2 ^ 63 ≤ i < 2 ^ 63 →
       ∃ k : nat,
         Shape.insertPoint i p self
         = (Ok tt,
            Shape.mk (Shape.label self) (Shape.group_id self)
                     (take k ps ++ p :: drop k ps) (Shape.fill self)
                     (Shape.selected self) (Shape.shape_type self)
                     (Shape.flags self) (Shape.description self)
                     (Shape.other_data self) (Shape.highlightIndex self)
                     (Shape.highlightMode self) (Shape.closed self)
                     (Shape.line_color self))
         ∧ Shape.points (Shape.insertPoint i p self).2 !! k = Some p
         ∧ delete k (Shape.points (Shape.insertPoint i p self).2) = ps
         ∧ (0 ≤ i ≤ n → k = Z.to_nat i)
         ∧ (n ≤ i → Shape.points (Shape.insertPoint i p self).2 = ps ++ [p])
         ∧ (- n ≤ i < 0 → k = Z.to_nat (n + i))
         ∧ (i ≤ - n → Shape.points (Shape.insertPoint i p self).2 = p :: ps)).
Proof.
  intros point ops self i p ps n. subst ps n.
  unfold Shape.insertPoint, PyList.insert. split.
  - intros Hi. rewrite (PyListFacts.in_ssize_t_false i) by done. done.
  - intros Hi. rewrite (PyListFacts.in_ssize_t_true i) by done.
    cbn [negb Shape.points Shape.with_points snd].
    destruct (ShapeListFacts.insert_at_cases (Shape.points self) i p)
      as (k & -> & Hk & Hin & Hhigh & Hneg & Hlow).
    exists k.
    destruct (ShapeListFacts.delete_inserted (Shape.points self) k p Hk)
      as [Hlook Hdel].
    split; [done|]. split; [done|]. split; [done|]. split; [done|].
    split; [|split; [done|]].
    + intros Hn. rewrite (Hhigh Hn), take_ge, drop_ge by lia. done.
    + intros Hn. by rewrite (Hlow Hn), take_0, drop_0.
Qed.

Lemma X2_witness :
  Shape.insertPoint Examples.huge (Examples.P 7 7) Examples.tri
  = (Raise OverflowError, Examples.tri)
  ∧ ∃ k : nat,
      Shape.points (Shape.insertPoint (-1) (Examples.P 7 7) Examples.tri).2 !! k
      = Some (Examples.P 7 7)
      ∧ k = 2%nat.
Proof.
  split.
  - apply (proj1 (X2_insertPoint_position
                    _ _ Examples.tri Examples.huge (Examples.P 7 7))).
    unfold Examples.huge. lia.
  - destruct (proj2 (X2_insertPoint_position _ _ Examples.tri (-1) (Examples.P 7 7)))
      as (k & _ & Hk & _ & _ & _ & Hneg & _); [lia|].
    exists k. split; [exact Hk|]. rewrite Hneg; [reflexivity|]. cbn. lia.
Defined.

(** X3. For an index in [0 .. len] that fits [Py_ssize_t],
    [insertPoint(i, p)] succeeds and [removePoint(i)] undoes it, provided
    the shape with the new point is one [removePoint] accepts. *)
Theorem X3_removePoint_undoes_insertPoint :
  ∀ (point : Type) (ops : PointOps point) (self : Shape.t point)
    (i : Z) (p : point),
    0 ≤ i ≤ Z.of_nat (length (Shape.points self)) →
    i < 2 ^ 63 →
    ¬ Shape.refuses_removal (Shape.insertPoint i p self).2 →
    (Shape.insertPoint i p self).1 = Ok tt
    ∧ Shape.removePoint i (Shape.insertPoint i p self).2 = (Ok tt, self, []).
Proof.
  intros point ops self i p Hi Hfit Hok.
  rewrite ShapeFacts.removePoint_accepted by done.
  assert (Hfit' : PyList.in_ssize_t i = true)
    by (apply PyListFacts.in_ssize_t_true; lia).
  unfold Shape.insertPoint, PyList.insert. rewrite Hfit'.
  cbn [negb fst snd Shape.points Shape.with_points]. split; [done|].
  destruct (ShapeListFacts.insert_at_cases (Shape.points self) i p)
    as (k & -> & Hk & Hin & _).
  destruct (ShapeListFacts.delete_inserted (Shape.points self) k p Hk)
    as [Hlook Hdel].
  assert (Hnorm : PyList.norm_index (take k (Shape.points self)
                                     ++ p :: drop k (Shape.points self)) i = Some k).
  { rewrite (Hin Hi). unfold PyList.norm_index.
    rewrite decide_True; [done|].
    rewrite length_app, length_take. cbn [length]. rewrite length_drop. lia. }
  destruct (PyListFacts.pop_at_norm _ _ _ Hfit' Hnorm) as (x & _ & ->).
  rewrite Hdel. by rewrite ShapeListFacts.with_points_id.
Qed.

Lemma X3_witness :
  (Shape.insertPoint 1 (Examples.P 7 7) Examples.tri).1 = Ok tt
  ∧ Shape.removePoint 1 (Shape.insertPoint 1 (Examples.P 7 7) Examples.tri).2
    = (Ok tt, Examples.tri, []).
Proof.
  apply (X3_removePoint_undoes_insertPoint _ _ Examples.tri 1 (Examples.P 7 7)).
  - change (0 ≤ 1 ≤ 3). lia.
  - lia.
  - intros [Hc|[[_ Hn]|[Hk _]]].
    + vm_compute in Hc. discriminate Hc.
    + vm_compute in Hn. lia.
    + vm_compute in Hk. discriminate Hk.
Defined.

(** X4. [removePoint] never takes a polygon below 3 points nor a linestrip
    below 2, whatever the index, and never changes the kind. *)
Theorem X4_removePoint_keeps_minimum :
  ∀ (point : Type) (ops : PointOps point) (self : Shape.t point) (i : Z),
    let after := (Shape.removePoint i self).1.2 in
    Shape.shape_type after = Shape.shape_type self
    ∧ (Shape.shape_type self = "polygon"%string →
       (3 ≤ length (Shape.points self))%nat →
       (3 ≤ length (Shape.points after))%nat)
    ∧ (Shape.shape_type self = "linestrip"%string →
       (2 ≤ length (Shape.points self))%nat →
       (2 ≤ length (Shape.points after))%nat).
Proof.
  intros point ops self i after. subst after.
  destruct (decide (Shape.refuses_removal self)) as [Hno|Hyes].
  { destruct (ShapeFacts.removePoint_refused i self Hno) as [w ->]. by cbn. }
  rewrite ShapeFacts.removePoint_accepted by done.
  destruct (PyList.pop_at (Shape.points self) i) as [[x ps]|e] eqn:Hpop;
    cbn; [|done].
  apply PyListFacts.length_pop_at in Hpop.
  unfold Shape.refuses_removal in Hyes.
  repeat split; intros Hk Hn;
    destruct (decide (length (Shape.points self) ≤ 3)%nat);
    destruct (decide (length (Shape.points self) ≤ 2)%nat); try lia; tauto.
Qed.

Lemma X4_witness :
  (3 ≤ length (Shape.points (Shape.removePoint 0 Examples.quad).1.2))%nat.
Proof.
  apply (proj1 (proj2 (X4_removePoint_keeps_minimum _ _ Examples.quad 0))).
  - reflexivity.
  - cbn. lia.
Defined.

(** ** nearestVertex: the scan over the vertices *)

Module VertexScan.
Section Scan.
Context {A : Type}.
Variable d : A → Qc.
Variable epsilon : Qc.
Variable body : option Qc * option Z → Z * A → option Qc * option Z.
Hypothesis Hbody : ∀ st ip,
  body st ip
  = if bool_decide (d ip.2 ≤ epsilon)%Qc && Shape.lt_min (d ip.2) (fst st)
    then (Some (d ip.2), Some ip.1)
    else st.

(** What the loop holds after the vertices of [l]. *)
Local Abbreviation seen := (λ (l : list A) (st : option Qc * option Z),
  match st with
  | (None, None) => ∀ j a, l !! j = Some a → ¬ (d a ≤ epsilon)%Qc
  | (Some m, Some i) =>
      ∃ (k : nat) a, i = Z.of_nat k ∧ l !! k = Some a ∧ m = d a
        ∧ (m ≤ epsilon)%Qc
        ∧ (∀ j a', l !! j = Some a' → (d a' ≤ epsilon)%Qc → (m ≤ d a')%Qc)
        ∧ (∀ j a', (j < k)%nat → l !! j = Some a' → (d a' ≤ epsilon)%Qc →
                   (m < d a')%Qc)
  | _ => False
  end).

Lemma lookup_snoc_cases (l : list A) (x a : A) (j : nat) :
  (l ++ [x]) !! j = Some a →
  l !! j = Some a ∨ (j = length l ∧ a = x).
Proof.
  intros Hj. destruct (decide (j < length l)%nat) as [Hlt|Hge].
  - left. by rewrite lookup_app_l in Hj.
  - right. rewrite lookup_app_r in Hj by lia.
    destruct (j - length l)%nat as [|?] eqn:Hd; [|done].
    cbn in Hj. split; [lia|congruence].
Qed.

Lemma seen_snoc (l : list A) (x : A) st :
  seen l st → seen (l ++ [x]) (body st (Z.of_nat (length l), x)).
Proof.
  intros Hst. rewrite Hbody. cbn [fst snd].
  assert (Hx : (l ++ [x]) !! length l = Some x).
  { rewrite lookup_app_r by lia. by rewrite Nat.sub_diag. }
  destruct st as [[m|] [i|]]; cbv beta iota in Hst; try done.
  - destruct Hst as (k & a & -> & Hk & -> & Hle & Hmin & Hfirst).
    pose proof (lookup_lt_Some _ _ _ Hk) as Hklt.
    cbn [fst Shape.lt_min].
    destruct (bool_decide (d x ≤ epsilon)%Qc) eqn:Hin; cbn [andb];
      [destruct (bool_decide (d x < d a)%Qc) eqn:Hlt|].
    + apply bool_decide_eq_true in Hin, Hlt.
      cbv beta iota zeta. exists (length l), x. repeat split; try done.
      * intros j a' Hj Ha'.
        destruct (lookup_snoc_cases _ _ _ _ Hj) as [Hj'|[-> ->]];
          [|apply Qcle_refl].
        apply Qclt_le_weak, Qclt_le_trans with (d a); eauto.
      * intros j a' Hjlt Hj Ha'.
        destruct (lookup_snoc_cases _ _ _ _ Hj) as [Hj'|[-> ->]]; [|lia].
        apply Qclt_le_trans with (d a); eauto.
    + apply bool_decide_eq_true in Hin. apply bool_decide_eq_false in Hlt.
      cbv beta iota zeta. exists k, a. repeat split; try done.
      * by rewrite lookup_app_l.
      * intros j a' Hj Ha'.
        destruct (lookup_snoc_cases _ _ _ _ Hj) as [Hj'|[-> ->]]; [eauto|].
        by apply Qcnot_lt_le.
      * intros j a' Hjlt Hj Ha'.
        destruct (lookup_snoc_cases _ _ _ _ Hj) as [Hj'|[-> ->]]; [eauto|lia].
    + apply bool_decide_eq_false in Hin.
      cbv beta iota zeta. exists k, a. repeat split; try done.
      * by rewrite lookup_app_l.
      * intros j a' Hj Ha'.
        destruct (lookup_snoc_cases _ _ _ _ Hj) as [Hj'|[-> ->]]; [eauto|done].
      * intros j a' Hjlt Hj Ha'.
        destruct (lookup_snoc_cases _ _ _ _ Hj) as [Hj'|[-> ->]]; [eauto|lia].
  - cbn [fst Shape.lt_min]. rewrite andb_true_r.
    destruct (bool_decide (d x ≤ epsilon)%Qc) eqn:Hin.
    + apply bool_decide_eq_true in Hin.
      cbv beta iota zeta. exists (length l), x. repeat split; try done.
      * intros j a' Hj Ha'.
        destruct (lookup_snoc_cases _ _ _ _ Hj) as [Hj'|[-> ->]];
          [by destruct (Hst j a')|apply Qcle_refl].
      * intros j a' Hjlt Hj Ha'.
        destruct (lookup_snoc_cases _ _ _ _ Hj) as [Hj'|[-> ->]];
          [by destruct (Hst j a')|lia].
    + apply bool_decide_eq_false in Hin. cbv beta iota zeta. intros j a' Hj.
      destruct (lookup_snoc_cases _ _ _ _ Hj) as [Hj'|[-> ->]]; [eauto|done].
Qed.

Lemma seen_all (l : list A) :
  seen l (foldl body (None, None) (Shape.enumerate l)).
Proof.
  induction l as [|x l IH] using rev_ind.
  { cbn. intros j a Hj. done. }
  unfold Shape.enumerate in *. rewrite imap_app, foldl_app. cbn [imap foldl].
  rewrite Nat.add_0_r. by apply seen_snoc.
Qed.

(** The result of the scan: [None] exactly when no vertex is within
    [epsilon]; otherwise the index of a vertex within [epsilon] that none is
    closer than, the first such vertex. *)
Lemma scan_spec (l : list A) :
  let r := snd (foldl body (None, None) (Shape.enumerate l)) in
  (r = None ↔ ∀ j a, l !! j = Some a → ¬ (d a ≤ epsilon)%Qc)
  ∧ (∀ i, r = Some i →
       ∃ (k : nat) a, i = Z.of_nat k ∧ l !! k = Some a ∧ (d a ≤ epsilon)%Qc
         ∧ (∀ j a', l !! j = Some a' → (d a ≤ d a')%Qc)
         ∧ (∀ j a', (j < k)%nat → l !! j = Some a' → (d a < d a')%Qc)).
Proof.
  intros r. subst r. pose proof (seen_all l) as Hst.
  destruct (foldl body (None, None) (Shape.enumerate l)) as [[m|] [i|]];
    [|by destruct Hst..|]; cbn [snd].
  - destruct Hst as (k & a & -> & Hk & -> & Hle & Hmin & Hfirst). split.
    + split; [done|]. intros Hnone. by destruct (Hnone k a).
    + intros i [= <-]. exists k, a. repeat split; try done.
      * intros j a' Hj.
        destruct (Qclt_le_dec epsilon (d a')) as [Hout|Hin]; [|eauto].
        apply Qclt_le_weak, Qcle_lt_trans with epsilon; done.
      * intros j a' Hjlt Hj.
        destruct (Qclt_le_dec epsilon (d a')) as [Hout|Hin]; [|eauto].
        by apply Qcle_lt_trans with epsilon.
  - split; [|done]. split; [|done]. intros _. exact Hst.
Qed.
End Scan.
End VertexScan.

(** X5. [Shape.nearestVertex(p, epsilon)] returns [None] exactly when no
    vertex is within [epsilon] of [p]; otherwise it returns the index of a
    vertex within [epsilon] that no vertex is closer than, the first such
    vertex. *)
Theorem X5_nearestVertex_first_closest :
  ∀ (point : Type) (ops : PointOps point)
    (psub : point → point → point) (distance : point → Qc)
    (self : Shape.t point) (pt : point) (epsilon : Qc),
    let dist := λ p, distance (psub p pt) in
    let r := Shape.nearestVertex psub distance pt epsilon self in
    (r = None ↔
     ∀ j p, Shape.points self !! j = Some p → ¬ (dist p ≤ epsilon)%Qc)
    ∧ (∀ i, r = Some i →
         ∃ (k : nat) p,
           i = Z.of_nat k ∧ Shape.points self !! k = Some p
           ∧ (dist p ≤ epsilon)%Qc
           ∧ (∀ j q, Shape.points self !! j = Some q → (dist p ≤ dist q)%Qc)
           ∧ (∀ j q, (j < k)%nat → Shape.points self !! j = Some q →
                     (dist p < dist q)%Qc)).
Proof.
  intros point ops psub distance self pt epsilon dist r.
  apply (VertexScan.scan_spec dist epsilon
           (Shape.nearestVertex_body psub distance pt epsilon)).
  reflexivity.
Qed.

Lemma X5_witness :
  ∃ (k : nat) p,
    1 = Z.of_nat k ∧ Shape.points Examples.tri !! k = Some p
    ∧ (MoreExamples.taxi (MoreExamples.psub p (Examples.P 9 1)) ≤ Z2Qc 5)%Qc.
Proof.
  destruct (proj2 (X5_nearestVertex_first_closest _ _ MoreExamples.psub
                     MoreExamples.taxi Examples.tri (Examples.P 9 1) (Z2Qc 5))
                  1 eq_refl)
    as (k & p & Hk & Hp & Hle & _).
  exists k, p. repeat split; assumption.
Defined.

(** ** Shape: moving vertices, item access *)

Module ShapeMoveFacts.
Section ShapeMoveFacts.
Context {point : Type} `{PointOps point}.
Implicit Types (self : Shape.t point) (p offset : point).

Lemma moveVertexBy_norm self i offset k p :
  PyList.norm_index (Shape.points self) i = Some k →
  Shape.points self !! k = Some p →
  Shape.moveVertexBy i offset self
  = (Ok tt, Shape.with_points self (<[k:=padd p offset]> (Shape.points self))).
Proof.
  intros Hk Hp. unfold Shape.moveVertexBy, PyList.getitem, PyList.setitem.
  by rewrite Hk, Hp.
Qed.

Lemma moveVertexBy_None self i offset :
  PyList.norm_index (Shape.points self) i = None →
  Shape.moveVertexBy i offset self = (Raise IndexError, self).
Proof.
  intros Hk. unfold Shape.moveVertexBy, PyList.getitem. by rewrite Hk.
Qed.

(** The shape after [moveVertexBy] at the indices [0 .. k-1]. *)
Lemma moveVertexBy_prefix self offset (k : nat) :
  (k ≤ length (Shape.points self))%nat →
  foldl (λ shape j, (Shape.moveVertexBy (Z.of_nat j) offset shape).2)
        self (seq 0 k)
  = Shape.with_points self
      (((λ p, padd p offset) <$> take k (Shape.points self))
       ++ drop k (Shape.points self)).
Proof.
  induction k as [|k IH]; intros Hk.
  { cbn. rewrite drop_0. by destruct self. }
  rewrite seq_S, foldl_snoc, IH by lia. cbn [Nat.add].
  destruct (lookup_lt_is_Some_2 (Shape.points self) k) as [p Hp]; [lia|].
  set (done_ := (λ p, padd p offset) <$> take k (Shape.points self)).
  assert (Hlen : length done_ = k).
  { unfold done_. rewrite length_fmap, length_take. lia. }
  erewrite (moveVertexBy_norm _ _ _ k p).
  - cbn [snd Shape.with_points Shape.points]. unfold Shape.with_points.
    cbn. f_equal.
    rewrite (drop_S _ _ _ Hp), (take_S_r _ _ _ Hp), fmap_app. cbn.
    rewrite insert_app_r_alt by lia. rewrite Hlen, Nat.sub_diag. cbn.
    by rewrite <- app_assoc.
  - cbn. apply PyListFacts.norm_index_nonneg.
    rewrite length_app, Hlen, length_drop. lia.
  - cbn. rewrite lookup_app_r by lia. rewrite Hlen, Nat.sub_diag.
    rewrite lookup_drop, Nat.add_0_r. done.
Qed.
End ShapeMoveFacts.
End ShapeMoveFacts.

(** X6. [moveBy(offset)] is [moveVertexBy(i, offset)] at every index in
    turn. *)
Theorem X6_moveBy_is_moveVertexBy_everywhere :
  ∀ (point : Type) (ops : PointOps point) (self : Shape.t point)
    (offset : point),
    foldl (λ shape j, (Shape.moveVertexBy (Z.of_nat j) offset shape).2)
          self (seq 0 (length (Shape.points self)))
    = Shape.moveBy offset self.
Proof.
  intros point ops self offset.
  rewrite ShapeMoveFacts.moveVertexBy_prefix by lia.
  rewrite take_ge, drop_ge, app_nil_r by lia. done.
Qed.

(** X7. [moveVertexBy(i, offset)] translates the vertex the index denotes,
    from the end for a negative index, and leaves every other vertex and
    the length as they are; when [i] denotes no vertex it raises
    [IndexError] and changes nothing. *)
Theorem X7_moveVertexBy_one_vertex :
  ∀ (point : Type) (ops : PointOps point) (self : Shape.t point)
    (i : Z) (offset : point),
    (∀ k, PyList.norm_index (Shape.points self) i = Some k →
       ∃ p after,
         Shape.points self !! k = Some p
         ∧ Shape.moveVertexBy i offset self = (Ok tt, after)
         ∧ Shape.points after !! k = Some (padd p offset)
         ∧ length (Shape.points after) = length (Shape.points self)
         ∧ (∀ j, j ≠ k → Shape.points after !! j = Shape.points self !! j)
         ∧ Shape.with_points after (Shape.points self) = self)
    ∧ (PyList.norm_index (Shape.points self) i = None →
       Shape.moveVertexBy i offset self = (Raise IndexError, self)).
Proof.
  intros point ops self i offset. split.
  - intros k Hk. pose proof (PyListFacts.norm_index_lt _ _ _ Hk) as Hlt.
    destruct (lookup_lt_is_Some_2 _ _ Hlt) as [p Hp].
    exists p, (Shape.with_points self (<[k:=padd p offset]> (Shape.points self))).
    split; [done|]. split; [by apply ShapeMoveFacts.moveVertexBy_norm|].
    cbn [Shape.points Shape.with_points]. repeat split.
    + by apply list_lookup_insert_eq.
    + apply length_insert.
    + intros j Hj. by apply list_lookup_insert_ne.
    + by destruct self.
  - apply ShapeMoveFacts.moveVertexBy_None.
Qed.

Lemma X7_witness :
  ∃ p after,
    Shape.points Examples.tri !! 2%nat = Some p
    ∧ Shape.moveVertexBy (-1) (Examples.P 1 1) Examples.tri = (Ok tt, after)
    ∧ Shape.points after !! 2%nat = Some (padd p (Examples.P 1 1)).
Proof.
  destruct (proj1 (X7_moveVertexBy_one_vertex _ _ Examples.tri (-1)
                     (Examples.P 1 1)) 2%nat eq_refl)
    as (p & after & Hp & Hmove & Hafter & _).
  exists p, after. repeat split; assumption.
Defined.

(** X8. [shape[key] = value] hands key and value to the point list. With
    an integer key that denotes a vertex, [shape[key]] is [value]
    afterwards, the length is the same and every other vertex and field is
    as before; with an integer key that denotes none it raises
    [IndexError], changing nothing, exactly when reading [shape[key]]
    raises it. With a slice [a:b] for key and a list of points for value
    the points from [a] up to [b] are replaced by the list, whatever its
    length, so the number of points changes; [shape[len:] = values]
    appends. *)
Theorem X8_setitem_getitem :
  ∀ (point : Type) (ops : PointOps point) (self : Shape.t point),
    let ps := Shape.points self in
    let with_ps (l : list point) :=
      Shape.mk (Shape.label self) (Shape.group_id self) l (Shape.fill self)
               (Shape.selected self) (Shape.shape_type self)
               (Shape.flags self) (Shape.description self)
               (Shape.other_data self) (Shape.highlightIndex self)
               (Shape.highlightMode self) (Shape.closed self)
               (Shape.line_color self) in
    (∀ (key : Z) (value : point) after,
       Shape.setitem key value self = (Ok tt, after) →
       Shape.getitem key after = Ok value
       ∧ Shape.len after = Shape.len self
       ∧ length (Shape.points after) = length ps
       ∧ (∀ j, PyList.norm_index ps key ≠ Some j →
               Shape.points after !! j = ps !! j)
       ∧ (∃ k, PyList.norm_index ps key = Some k
               ∧ after = with_ps (<[k:=value]> ps)))
    ∧ (∀ (key : Z) (value : point),
         Shape.setitem key value self = (Raise IndexError, self)
         ↔ Shape.getitem key self = Raise IndexError)
    ∧ (∀ (a b : nat) (values : list point),
         (a ≤ b ≤ length ps)%nat →
         Shape.setslice (Some (Z.of_nat a)) (Some (Z.of_nat b)) None values self
         = (Ok tt, with_ps (take a ps ++ values ++ drop b ps))
         ∧ length (take a ps ++ values ++ drop b ps)
           = (length ps - (b - a) + length values)%nat)
    ∧ (∀ values : list point,
         Shape.setslice (Some (Z.of_nat (length ps))) None None values self
         = (Ok tt, with_ps (ps ++ values))).
Proof.
  intros point ops self ps with_ps. subst ps with_ps.
  split; [|split; [|split]].
  - intros key value.
    unfold Shape.setitem, Shape.getitem, Shape.len, PyList.setitem, PyList.getitem.
    destruct (PyList.norm_index (Shape.points self) key) as [k|] eqn:Hk;
      [|intros after [=]].
    pose proof (PyListFacts.norm_index_lt _ _ _ Hk) as Hlt.
    intros after [= <-]. cbn [Shape.points Shape.with_points].
    rewrite (PyListFacts.norm_index_length _ (Shape.points self))
      by apply length_insert.
    rewrite Hk, list_lookup_insert_eq, length_insert by done.
    split; [done|]. split; [done|]. split; [done|]. split.
    + intros j Hj. apply list_lookup_insert_ne. congruence.
    + by exists k.
  - intros key value.
    unfold Shape.setitem, Shape.getitem, PyList.setitem, PyList.getitem.
    destruct (PyList.norm_index (Shape.points self) key) as [k|] eqn:Hk;
      [|done].
    pose proof (PyListFacts.norm_index_lt _ _ _ Hk) as Hlt.
    destruct (lookup_lt_is_Some_2 _ _ Hlt) as [p ->]. split; intros [=].
  - intros a b values Hab. unfold Shape.setslice.
    rewrite PyListFacts.setslice_range by done. split; [done|].
    rewrite !length_app, length_take, length_drop. lia.
  - intros values. unfold Shape.setslice.
    by rewrite PyListFacts.setslice_append.
Qed.

Lemma X8_witness :
  Shape.getitem (-1) (Shape.setitem (-1) (Examples.P 7 7) Examples.tri).2
  = Ok (Examples.P 7 7)
  ∧ Shape.setslice (Some 1) (Some 2) None [] Examples.rect2
    = (Ok tt, Examples.blank "rectangle" [Examples.P 0 0])
  ∧ Shape.setslice (Some 2) None None [Examples.P 7 7] Examples.rect2
    = (Ok tt, Examples.blank "rectangle"
                [Examples.P 0 0; Examples.P 4 3; Examples.P 7 7]).
Proof.
  split; [|split].
  - apply (proj1 (X8_setitem_getitem _ _ Examples.tri)
                 (-1) (Examples.P 7 7) _ eq_refl).
  - apply (proj1 (proj2 (proj2 (X8_setitem_getitem _ _ Examples.rect2))))
      with (a := 1%nat) (b := 2%nat) (values := []).
    cbn. lia.
  - apply (proj2 (proj2 (proj2 (X8_setitem_getitem _ _ Examples.rect2)))
                 [Examples.P 7 7]).
Defined.

(** ** Shape: what the operations leave alone *)

Module ShapeFrameFacts.
Section ShapeFrameFacts.
Context {point : Type} `{PointOps point}.
Implicit Types (self : Shape.t point) (o : Shape.op (point:=point)).

Ltac open_op :=
  cbn [Shape.exec];
  unfold Shape.addPoint, Shape.popPoint, Shape.insertPoint, Shape.removePoint,
    Shape.moveBy, Shape.moveVertexBy, Shape.setitem, Shape.setslice,
    Shape.set_shape_type, Shape.close, Shape.setOpen, Shape.highlightVertex,
    Shape.highlightClear;
  repeat case_match; cbn; try done.

Lemma check_shape_type_Ok value k :
  Shape.check_shape_type value = Ok k → k ∈ Shape.shape_types.
Proof.
  unfold Shape.check_shape_type.
  destruct (bool_decide _) eqn:Hin; cbn; [|done].
  intros [= <-]. by apply bool_decide_eq_true in Hin.
Qed.

Lemma exec_passthrough o self :
  Shape.label (Shape.exec o self) = Shape.label self
  ∧ Shape.group_id (Shape.exec o self) = Shape.group_id self
  ∧ Shape.flags (Shape.exec o self) = Shape.flags self
  ∧ Shape.description (Shape.exec o self) = Shape.description self
  ∧ Shape.other_data (Shape.exec o self) = Shape.other_data self
  ∧ Shape.fill (Shape.exec o self) = Shape.fill self
  ∧ Shape.selected (Shape.exec o self) = Shape.selected self
  ∧ Shape.line_color (Shape.exec o self) = Shape.line_color self.
Proof. destruct o; open_op. Qed.

Lemma exec_shape_type o self :
  (∀ value, o ≠ Shape.SetShapeType value) →
  Shape.shape_type (Shape.exec o self) = Shape.shape_type self.
Proof.
  intros Ho. destruct o; try (by open_op). by destruct (Ho value).
Qed.

Lemma exec_closed o self :
  (∀ p, o ≠ Shape.AddPoint p) → o ≠ Shape.Close → o ≠ Shape.SetOpen →
  Shape.closed (Shape.exec o self) = Shape.closed self.
Proof.
  intros Hadd Hclose Hopen. destruct o; try (by open_op).
  by destruct (Hadd p).
Qed.

Lemma exec_points o self :
  match o with
  | Shape.SetShapeType _ | Shape.Close | Shape.SetOpen
  | Shape.HighlightVertex _ _ | Shape.HighlightClear => True
  | _ => False
  end →
  Shape.points (Shape.exec o self) = Shape.points self.
Proof. destruct o; try done; intros _; open_op. Qed.

Lemma exec_valid_kind o self :
  Shape.shape_type self ∈ Shape.shape_types →
  Shape.shape_type (Shape.exec o self) ∈ Shape.shape_types.
Proof.
  intros Hk.
  destruct o; try (rewrite exec_shape_type; [done|by intros ?]).
  cbn [Shape.exec]. unfold Shape.set_shape_type.
  destruct (Shape.check_shape_type value) as [k|e] eqn:Hcheck; cbn; [|done].
  by apply check_shape_type_Ok in Hcheck.
Qed.
End ShapeFrameFacts.
End ShapeFrameFacts.

(** X9. The kind of a shape the constructor returned is one of the six
    kinds, and stays one of them under any sequence of operations, failed
    kind assignments included. *)
Theorem X9_kind_always_valid :
  ∀ (point : Type) (ops : PointOps point)
    label lc kind fl gid desc (s0 : Shape.t point)
    (os : list (Shape.op (point:=point))),
    Shape.init label lc kind fl gid desc = Ok s0 →
    Shape.shape_type (foldl (λ shape o, Shape.exec o shape) s0 os)
    ∈ Shape.shape_types.
Proof.
  intros point ops label lc kind fl gid desc s0 os Hinit.
  assert (Hk : Shape.shape_type s0 ∈ Shape.shape_types).
  { unfold Shape.init in Hinit.
    destruct (Shape.check_shape_type kind) as [k|e] eqn:Hcheck; [|done].
    cbn in Hinit. injection Hinit as <-. cbn.
    by apply ShapeFrameFacts.check_shape_type_Ok in Hcheck. }
  clear Hinit. revert s0 Hk. induction os as [|o os IH]; intros s0 Hk; [done|].
  cbn [foldl]. by apply IH, ShapeFrameFacts.exec_valid_kind.
Qed.

Lemma X9_witness :
  Shape.shape_type
    (foldl (λ shape o, Shape.exec o shape)
           (Examples.blank "circle" [])
           [Shape.AddPoint (Examples.P 1 1);
            Shape.SetShapeType (Some "triangle"%string);
            Shape.SetShapeType (Some "line"%string)])
  ∈ Shape.shape_types.
Proof.
  apply (X9_kind_always_valid qpoint _ None None (Some "circle"%string)
           None None None).
  reflexivity.
Defined.

(** X10. No operation, and so no sequence of operations, changes the label,
    the group id, the flags, the description, the other data, the fill and
    selection marks or the line colour. Only [addPoint], [close] and
    [setOpen] change [closed]: [popPoint] and [removePoint] leave a closed
    shape closed. Setting the kind, closing, opening and highlighting leave
    the points as they are. *)
Theorem X10_operations_frame :
  ∀ (point : Type) (ops : PointOps point) (self : Shape.t point),
    (∀ os : list (Shape.op (point:=point)),
       let after := foldl (λ shape o, Shape.exec o shape) self os in
       Shape.label after = Shape.label self
       ∧ Shape.group_id after = Shape.group_id self
       ∧ Shape.flags after = Shape.flags self
       ∧ Shape.description after = Shape.description self
       ∧ Shape.other_data after = Shape.other_data self
       ∧ Shape.fill after = Shape.fill self
       ∧ Shape.selected after = Shape.selected self
       ∧ Shape.line_color after = Shape.line_color self)
    ∧ (∀ o, (∀ p, o ≠ Shape.AddPoint p) → o ≠ Shape.Close → o ≠ Shape.SetOpen →
            Shape.closed (Shape.exec o self) = Shape.closed self)
    ∧ (∀ o, match o with
            | Shape.SetShapeType _ | Shape.Close | Shape.SetOpen
            | Shape.HighlightVertex _ _ | Shape.HighlightClear => True
            | _ => False
            end →
            Shape.points (Shape.exec o self) = Shape.points self).
Proof.
  intros point ops self. split; [|split].
  - intros os. cbv zeta. revert self.
    induction os as [|o os IH]; intros self; [done|].
    cbn [foldl]. destruct (IH (Shape.exec o self)) as (-> & -> & -> & -> & -> & -> & -> & ->).
    apply ShapeFrameFacts.exec_passthrough.
  - intros o. apply ShapeFrameFacts.exec_closed.
  - intros o. apply ShapeFrameFacts.exec_points.
Qed.

Lemma X10_witness :
  Shape.closed (Shape.exec Shape.PopPoint (Shape.close Examples.tri)) = true.
Proof.
  refine (proj1 (proj2 (X10_operations_frame _ _ (Shape.close Examples.tri)))
                Shape.PopPoint _ _ _); discriminate.
Defined.

(** ** Shape: paths *)

Module ShapePathFacts.
Section ShapePathFacts.
Variable sqrt : Qc → Qc.
Implicit Types (self : Shape.t qpoint).


End ShapePathFacts.
End ShapePathFacts.



(** ** MultipoinstShape beyond the claims *)

Module MultipoinstMoreFacts.
Section MultipoinstMoreFacts.
Context {point : Type} `{PointOps point}.
Implicit Types (self : MultipoinstShape.t point) (p : point).
Import MultipoinstShape.

Lemma with_both_id self ps ls :
  with_points (with_labels (with_labels (with_points self ps) ls) (labels self))
              (points self) = self.
Proof. by destruct self. Qed.

Lemma addPoint_append p l self :
  is_first p (points self) = false →
  addPoint p l self
  = with_labels (with_points self (points self ++ [p])) (labels self ++ [l]).
Proof.
  unfold addPoint, is_first. destruct (points self) as [|p0 rest]; [done|].
  by intros ->.
Qed.

Lemma prompt_addPoint_first p l self :
  is_first p (points self) = true → addPoint p l self = self.
Proof.
  unfold addPoint, is_first. destruct (points self) as [|p0 rest]; [done|].
  by intros ->.
Qed.

(** Clicks on a shape that has a first point [p0]: those that [==] takes
    for [p0] are ignored, the others are appended with their labels. *)
Lemma clicks_appended p0 (clicks : list (point * bool)) self :
  list.head (points self) = Some p0 →
  aligned self →
  aligned (foldl (λ shape pl, addPoint pl.1 pl.2 shape) self clicks)
  ∧ prompts (foldl (λ shape pl, addPoint pl.1 pl.2 shape) self clicks)
    = prompts self ++ filter (λ pl, point_eqb pl.1 p0 = false) clicks.
Proof.
  revert self. induction clicks as [|[p l] clicks IH]; intros self Hhd Hal.
  { cbn. by rewrite app_nil_r. }
  assert (Hfirst : is_first p (points self) = point_eqb p p0).
  { destruct (points self) as [|q rest]; [done|]. cbn in Hhd. by injection Hhd as ->. }
  cbn [foldl fst snd]. destruct (point_eqb p p0) eqn:Hp.
  - rewrite (prompt_addPoint_first _ _ _ Hfirst).
    rewrite filter_cons_False by (cbn; by rewrite Hp). by apply IH.
  - destruct (IH (addPoint p l self)) as [Hal' ->].
    + rewrite addPoint_append by done. cbn.
      destruct (points self); [done|]. done.
    + by apply MultipoinstFacts.addPoint_steps.
    + split; [done|]. rewrite filter_cons_True by done.
      rewrite addPoint_append by done. unfold prompts. cbn.
      rewrite MultipoinstFacts.zip_snoc by done. by rewrite <- app_assoc.
Qed.

Lemma removePoint_nonempty i self :
  points self ≠ [] → points (removePoint i self).1.2 ≠ [].
Proof.
  intros Hne. unfold removePoint. case_bool_decide as Hlen; [done|].
  destruct (PyList.pop_at (labels self) i) as [[l ls]|e]; [|done].
  cbn [points with_labels].
  destruct (PyList.pop_at (points self) i) as [[x ps]|e] eqn:Hpop; [|done].
  cbn. apply PyListFacts.length_pop_at in Hpop.
  intros ->. cbn in Hpop. lia.
Qed.

Lemma removePoint_norm i k self :
  aligned self →
  (2 ≤ length (points self))%nat →
  PyList.in_ssize_t i = true →
  PyList.norm_index (points self) i = Some k →
  removePoint i self
  = (Ok tt,
     mk (delete k (points self)) (delete k (labels self)) (selected self)
        (other_data self) (closed self) (shape_type self),
     []).
Proof.
  intros Hal Hlen Hfit Hk. unfold removePoint.
  rewrite bool_decide_eq_false_2 by lia. pose proof Hk as Hk'.
  rewrite (PyListFacts.norm_index_length _ (labels self)) in Hk' by done.
  destruct (PyListFacts.pop_at_norm _ _ _ Hfit Hk') as (l & _ & ->).
  cbn [points with_labels].
  by destruct (PyListFacts.pop_at_norm _ _ _ Hfit Hk) as (p & _ & ->).
Qed.

Lemma prompt_popPoint_snoc self ps p ls l :
  points self = ps ++ [p] →
  labels self = ls ++ [l] →
  popPoint self = (Ok (Some p), with_points (with_labels self ls) ps).
Proof.
  intros Hps Hls. unfold popPoint.
  rewrite Hls, PyListFacts.pop_snoc. cbn [points with_labels].
  rewrite Hps, PyListFacts.pop_snoc. by destruct ps.
Qed.
End MultipoinstMoreFacts.
End MultipoinstMoreFacts.

(** X12. [MultipoinstShape.removePoint] never removes the last point of a
    shape: with one point or none it only reports a warning, and a shape
    that has points keeps at least one, so that [makePath] still finds its
    first point and runs through the points left. On a shape with as many
    labels as points and at least two of them it removes the point and
    the label at index [i], counted from the end when [i] is negative, and
    leaves every other field; it raises [IndexError] without a change when
    [i] is out of range, and [OverflowError] without a change when [i] does
    not fit [Py_ssize_t]. *)
Theorem X12_prompt_removePoint_keeps_a_point :
  ∀ (point : Type) (ops : PointOps point)
    (self : MultipoinstShape.t point) (i : Z),
    let n := Z.of_nat (length (MultipoinstShape.points self)) in
    let without (k : nat) :=
      MultipoinstShape.mk (delete k (MultipoinstShape.points self))
                          (delete k (MultipoinstShape.labels self))
                          (MultipoinstShape.selected self)
                          (MultipoinstShape.other_data self)
                          (MultipoinstShape.closed self)
                          (MultipoinstShape.shape_type self) in
    ((length (MultipoinstShape.points self) ≤ 1)%nat →
       ∃ w, MultipoinstShape.removePoint i self = (Ok tt, self, [w]))
    ∧ (MultipoinstShape.points self ≠ [] →
       MultipoinstShape.points (MultipoinstShape.removePoint i self).1.2 ≠ []
       ∧ MultipoinstShape.makePath (MultipoinstShape.removePoint i self).1.2
         = Ok (MultipoinstShape.points (MultipoinstShape.removePoint i self).1.2))
    ∧ (MultipoinstShape.aligned self →
       (2 ≤ length (MultipoinstShape.points self))%nat →
       (0 ≤ i < n → i < 2 ^ 63 →
          MultipoinstShape.removePoint i self
          = (Ok tt, without (Z.to_nat i), []))
       ∧ (- n ≤ i < 0 → - 2 ^ 63 ≤ i →
          MultipoinstShape.removePoint i self
          = (Ok tt, without (Z.to_nat (n + i)), []))
       ∧ (i < - n ∨ n ≤ i → - 2 ^ 63 ≤ i < 2 ^ 63 →
          MultipoinstShape.removePoint i self = (Raise IndexError, self, []))
       ∧ (¬ (- 2 ^ 63 ≤ i < 2 ^ 63) →
          MultipoinstShape.removePoint i self = (Raise OverflowError, self, []))).
Proof.
  intros point ops self i n without. split; [|split].
  - intros Hlen. unfold MultipoinstShape.removePoint.
    rewrite bool_decide_eq_true_2 by done. by eexists.
  - intros Hne.
    pose proof (MultipoinstMoreFacts.removePoint_nonempty i self Hne) as Hafter.
    split; [done|]. unfold MultipoinstShape.makePath.
    destruct (MultipoinstShape.points (MultipoinstShape.removePoint i self).1.2)
      as [|p0 rest]; [done|].
    reflexivity.
  - intros Hal Hlen. split; [|split; [|split]].
    + intros Hi Hfit. apply MultipoinstMoreFacts.removePoint_norm; [done..| |].
      * apply PyListFacts.in_ssize_t_true; lia.
      * unfold PyList.norm_index. by rewrite decide_True.
    + intros Hi Hfit. apply MultipoinstMoreFacts.removePoint_norm; [done..| |].
      * apply PyListFacts.in_ssize_t_true; lia.
      * unfold PyList.norm_index. rewrite decide_False by lia.
        by rewrite decide_True.
    + intros Hi Hfit. unfold MultipoinstShape.removePoint.
      rewrite bool_decide_eq_false_2 by lia.
      rewrite PyListFacts.pop_at_None; [done| |].
      * by apply PyListFacts.in_ssize_t_true.
      * unfold PyList.norm_index. rewrite <- Hal.
        by rewrite !decide_False by (subst n; lia).
    + intros Hfit. unfold MultipoinstShape.removePoint.
      rewrite bool_decide_eq_false_2 by lia.
      rewrite PyListFacts.pop_at_overflow; [done|].
      by apply PyListFacts.in_ssize_t_false.
Qed.

Lemma X12_witness :
  MultipoinstShape.removePoint 0 MoreExamples.prompts2
  = (Ok tt,
     MultipoinstShape.mk [Examples.P 2 2] [false] false [] false "multipoints",
     [])
  ∧ MultipoinstShape.removePoint Examples.huge MoreExamples.prompts2
    = (Raise OverflowError, MoreExamples.prompts2, [])
  ∧ ∃ w, MultipoinstShape.removePoint 0 Examples.prompt_pos
         = (Ok tt, Examples.prompt_pos, [w]).
Proof.
  assert (Hal : MultipoinstShape.aligned MoreExamples.prompts2) by reflexivity.
  assert (Hlen : (2 ≤ length (MultipoinstShape.points MoreExamples.prompts2))%nat).
  { cbn. lia. }
  split; [|split].
  - apply (proj1 (proj2 (proj2 (X12_prompt_removePoint_keeps_a_point _ _
                     MoreExamples.prompts2 0)) Hal Hlen)); cbn; lia.
  - apply (proj2 (proj2 (proj2 (proj2 (proj2
             (X12_prompt_removePoint_keeps_a_point _ _
                MoreExamples.prompts2 Examples.huge)) Hal Hlen)))).
    unfold Examples.huge. lia.
  - apply (proj1 (X12_prompt_removePoint_keeps_a_point _ _ Examples.prompt_pos 0)).
    cbn. lia.
Defined.

(** X13. [MultipoinstShape.addPoint] ignores a point that [==] takes for
    the first point, label included, the first point itself being one; a
    point on a shape without points, or one that [==] tells from the first
    point, is appended with its label, and [popPoint] then returns that
    point and restores the shape. *)
Theorem X13_prompt_addPoint_popPoint :
  ∀ (point : Type) (ops : PointOps point)
    (self : MultipoinstShape.t point) (p : point) (is_positive : bool),
    (∀ p0 rest, MultipoinstShape.points self = p0 :: rest →
       point_eqb p p0 = true →
       MultipoinstShape.addPoint p is_positive self = self)
    ∧ (∀ rest, MultipoinstShape.points self = p :: rest →
       MultipoinstShape.addPoint p is_positive self = self)
    ∧ ((MultipoinstShape.points self = []
        ∨ ∃ p0 rest, MultipoinstShape.points self = p0 :: rest
                     ∧ point_eqb p p0 = false) →
       MultipoinstShape.points (MultipoinstShape.addPoint p is_positive self)
       = MultipoinstShape.points self ++ [p]
       ∧ MultipoinstShape.labels (MultipoinstShape.addPoint p is_positive self)
         = MultipoinstShape.labels self ++ [is_positive]
       ∧ MultipoinstShape.popPoint (MultipoinstShape.addPoint p is_positive self)
         = (Ok (Some p), self)).
Proof.
  intros point ops self p is_positive. split; [|split].
  - intros p0 rest Hps Heq.
    apply MultipoinstMoreFacts.prompt_addPoint_first. by rewrite Hps.
  - intros rest Hps.
    apply MultipoinstMoreFacts.prompt_addPoint_first. rewrite Hps.
    apply ShapeFacts.is_first_head.
  - intros Hp. rewrite MultipoinstMoreFacts.addPoint_append.
    + split; [done|]. split; [done|].
      erewrite MultipoinstMoreFacts.prompt_popPoint_snoc by reflexivity.
      f_equal. apply MultipoinstMoreFacts.with_both_id.
    + destruct Hp as [->|(p0 & rest & -> & Hne)]; done.
Qed.

Lemma X13_witness :
  MultipoinstShape.addPoint (Examples.P 1 1) false MoreExamples.prompts2
  = MoreExamples.prompts2
  ∧ MultipoinstShape.popPoint
      (MultipoinstShape.addPoint (Examples.P 3 3) true MoreExamples.prompts2)
    = (Ok (Some (Examples.P 3 3)), MoreExamples.prompts2).
Proof.
  split.
  - apply (proj1 (X13_prompt_addPoint_popPoint _ _ MoreExamples.prompts2
                    (Examples.P 1 1) false)
                 (Examples.P 1 1) [Examples.P 2 2]);
      vm_compute; reflexivity.
  - apply (proj2 (proj2 (X13_prompt_addPoint_popPoint _ _ MoreExamples.prompts2
                           (Examples.P 3 3) true))).
    right. exists (Examples.P 1 1), [Examples.P 2 2].
    split; vm_compute; reflexivity.
Defined.

(** X14. A prompt shape filled by clicks alone holds the first click and,
    in order, the later clicks that [==] tells from the first point, each
    with its label: every later click that [==] takes for the first point
    is dropped together with its label. *)
Theorem X14_prompt_clicks :
  ∀ (point : Type) (ops : PointOps point)
    (p0 : point) (l0 : bool) (clicks : list (point * bool)),
    let self :=
      foldl (λ shape pl, MultipoinstShape.addPoint pl.1 pl.2 shape)
            MultipoinstShape.init ((p0, l0) :: clicks) in
    MultipoinstShape.aligned self
    ∧ MultipoinstShape.points self
      = p0 :: (filter (λ pl, point_eqb pl.1 p0 = false) clicks).*1
    ∧ MultipoinstShape.labels self
      = l0 :: (filter (λ pl, point_eqb pl.1 p0 = false) clicks).*2
    ∧ MultipoinstShape.prompts self
      = (p0, l0) :: filter (λ pl, point_eqb pl.1 p0 = false) clicks.
Proof.
  intros point ops p0 l0 clicks self. subst self. cbn [foldl fst snd].
  destruct (MultipoinstMoreFacts.clicks_appended p0 clicks
              (MultipoinstShape.addPoint p0 l0 MultipoinstShape.init)
              eq_refl eq_refl) as [Hal Hpr].
  split; [done|]. cbn in Hpr.
  set (self := foldl _ _ clicks) in *.
  set (kept := filter _ clicks) in *.
  unfold MultipoinstShape.prompts in Hpr.
  unfold MultipoinstShape.aligned in Hal.
  split; [|split; [|done]].
  - rewrite <- (fst_zip (MultipoinstShape.points self)
                        (MultipoinstShape.labels self)) by lia.
    by rewrite Hpr.
  - rewrite <- (snd_zip (MultipoinstShape.points self)
                        (MultipoinstShape.labels self)) by lia.
    by rewrite Hpr.
Qed.

(** X15. [MultipoinstShape.nearestVertex(p, epsilon)] returns [None] exactly
    when no prompt point is within [epsilon] of [p]; otherwise it returns
    the index of a point within [epsilon] that no point is closer than, the
    first such point. *)
Theorem X15_prompt_nearestVertex_first_closest :
  ∀ (point : Type) (ops : PointOps point)
    (psub : point → point → point) (distance : point → Qc)
    (self : MultipoinstShape.t point) (pt : point) (epsilon : Qc),
    let dist := λ p, distance (psub p pt) in
    let r := MultipoinstShape.nearestVertex psub distance pt epsilon self in
    (r = None ↔
     ∀ j p, MultipoinstShape.points self !! j = Some p → ¬ (dist p ≤ epsilon)%Qc)
    ∧ (∀ i, r = Some i →
         ∃ (k : nat) p,
           i = Z.of_nat k ∧ MultipoinstShape.points self !! k = Some p
           ∧ (dist p ≤ epsilon)%Qc
           ∧ (∀ j q, MultipoinstShape.points self !! j = Some q →
                     (dist p ≤ dist q)%Qc)
           ∧ (∀ j q, (j < k)%nat → MultipoinstShape.points self !! j = Some q →
                     (dist p < dist q)%Qc)).
Proof.
  intros point ops psub distance self pt epsilon dist r.
  apply (VertexScan.scan_spec dist epsilon
           (MultipoinstShape.nearestVertex_body psub distance pt epsilon)).
  reflexivity.
Qed.

Lemma X15_witness :
  ∃ (k : nat) p,
    0 = Z.of_nat k ∧ MultipoinstShape.points MoreExamples.prompts2 !! k = Some p
    ∧ (MoreExamples.taxi (MoreExamples.psub p (Examples.P 1 0)) ≤ Z2Qc 2)%Qc.
Proof.
  destruct (proj2 (X15_prompt_nearestVertex_first_closest _ _ MoreExamples.psub
                     MoreExamples.taxi MoreExamples.prompts2 (Examples.P 1 0)
                     (Z2Qc 2))
                  0 eq_refl)
    as (k & p & Hk & Hp & Hle & _).
  exists k, p. repeat split; assumption.
Defined.

(** ** Shapes made of clicks, and the shapes of toPolygons *)

Module PolygonFacts.
Import MaskShape.

Section Clicks.
Context {point : Type} `{PointOps point}.

(** [addPoint] after [addPoint] changes neither the kind nor the
    passthrough fields. *)
Lemma foldl_addPoint_frame (ps : list point) (self : Shape.t point) :
  let after := foldl (λ shape p, Shape.addPoint p shape) self ps in
  Shape.shape_type after = Shape.shape_type self
  ∧ Shape.label after = Shape.label self
  ∧ Shape.group_id after = Shape.group_id self
  ∧ Shape.flags after = Shape.flags self
  ∧ Shape.description after = Shape.description self
  ∧ Shape.other_data after = Shape.other_data self
  ∧ Shape.fill after = Shape.fill self
  ∧ Shape.selected after = Shape.selected self
  ∧ Shape.line_color after = Shape.line_color self.
Proof.
  cbv zeta. revert self. induction ps as [|p ps IH]; intros self; [done|].
  cbn [foldl].
  destruct (IH (Shape.addPoint p self))
    as (-> & -> & -> & -> & -> & -> & -> & -> & ->).
  split.
  - apply (ShapeFrameFacts.exec_shape_type (Shape.AddPoint p)). by intros ?.
  - apply (ShapeFrameFacts.exec_passthrough (Shape.AddPoint p)).
Qed.
End Clicks.

Section Polygons.
Context {ops : PointOps qpoint}.

Lemma spec_polygon_fields self (ring : list qpoint) :
  (5 ≤ length ring)%nat →
  Shape.shape_type (spec_polygon (ops:=ops) self ring) = "polygon"%string
  ∧ Shape.label (spec_polygon (ops:=ops) self ring) = label self
  ∧ Shape.group_id (spec_polygon (ops:=ops) self ring) = group_id self
  ∧ Shape.flags (spec_polygon (ops:=ops) self ring) = flags self
  ∧ Shape.description (spec_polygon (ops:=ops) self ring) = description self
  ∧ Shape.other_data (spec_polygon (ops:=ops) self ring) = []
  ∧ Shape.fill (spec_polygon (ops:=ops) self ring) = false
  ∧ Shape.selected (spec_polygon (ops:=ops) self ring) = false
  ∧ Shape.line_color (spec_polygon (ops:=ops) self ring) = None
  ∧ (1 ≤ length (Shape.points (spec_polygon (ops:=ops) self ring)))%nat.
Proof.
  intros Hlen. unfold spec_polygon.
  set (blank := Shape.mk _ _ _ _ _ _ _ _ _ _ _ _ _).
  destruct (foldl_addPoint_frame ring blank)
    as (-> & -> & -> & -> & -> & -> & -> & -> & ->).
  repeat split.
  destruct ring as [|p rest]; [cbn in Hlen; lia|].
  destruct (RingFacts.spec_polygon_cons (ops:=ops) self p rest) as [Hps _].
  unfold spec_polygon in Hps. fold blank in Hps. rewrite Hps. cbn. lia.
Qed.

(** One outer contour, no hole. *)
Lemma toPolygons_single approxPolyDP self (c : contour) (prev parent : Z)
    epsilon (fuel : nat) :
  toPolygons (ops:=ops) approxPolyDP self [c] [(-1, prev, -1, parent)]
             epsilon (S fuel)
  = Some (Ok (if bool_decide (length (approxPolyDP c epsilon true) < 4)%nat
              then []
              else [spec_polygon (ops:=ops) self
                      (close_ring (descale self (approxPolyDP c epsilon true)))])).
Proof.
  assert (Hforest : forest [c] [(-1, prev, -1, parent)] (S fuel) (S fuel) 0
                    = Some (Ok [(c, [])])).
  { destruct fuel; vm_compute; reflexivity. }
  rewrite ToPolygonsFacts.toPolygons_toRings. unfold toRings.
  rewrite Hforest. cbn [length bool_decide decide_rel].
  rewrite bool_decide_eq_false_2 by done.
  unfold res_map, res_bind, spec_surviving. cbn [fmap list_fmap].
  rewrite filter_cons, filter_nil.
  change (spec_ring approxPolyDP self epsilon (c, []))
    with (close_ring (descale self (approxPolyDP c epsilon true))).
  assert (Hlen : length (close_ring (descale self (approxPolyDP c epsilon true)))
                 = (length (approxPolyDP c epsilon true)
                    + Nat.min 1 (length (approxPolyDP c epsilon true)))%nat).
  { unfold close_ring, descale.
    rewrite length_app, length_take, length_fmap. lia. }
  case_decide; case_bool_decide; try done; lia.
Qed.
End Polygons.
End PolygonFacts.

(** X16. Every shape [toPolygons] returns is a polygon with the label, group
    id, flags and description of the mask shape, with no other data, not
    filled, not selected and without a line colour of its own, and it holds
    at least one point. *)
Theorem X16_polygons_inherit_fields :
  ∀ (ops : PointOps qpoint)
    (approxPolyDP : MaskShape.contour → Qc → bool → MaskShape.contour)
    (self : MaskShape.t) (contours : list MaskShape.contour)
    (hierarchy : list MaskShape.hrow) (epsilon : Qc) (fuel : nat)
    (shapes : list (Shape.t qpoint)),
    MaskShape.scale self ≠ Z2Qc 0 →
    MaskShape.toPolygons (ops:=ops) approxPolyDP self contours hierarchy
                         epsilon fuel
    = Some (Ok shapes) →
    Forall (λ shape,
              Shape.shape_type shape = "polygon"%string
              ∧ Shape.label shape = MaskShape.label self
              ∧ Shape.group_id shape = MaskShape.group_id self
              ∧ Shape.flags shape = MaskShape.flags self
              ∧ Shape.description shape = MaskShape.description self
              ∧ Shape.other_data shape = []
              ∧ Shape.fill shape = false
              ∧ Shape.selected shape = false
              ∧ Shape.line_color shape = None
              ∧ (1 ≤ length (Shape.points shape))%nat)
           shapes.
Proof.
  intros ops approxPolyDP self contours hierarchy epsilon fuel shapes Hscale.
  rewrite ToPolygonsFacts.toPolygons_toRings. unfold MaskShape.toRings.
  case_bool_decide.
  { intros [= <-]. constructor. }
  destruct (MaskShape.forest contours hierarchy fuel fuel 0) as [[f|e]|];
    [|done..].
  cbn. intros [= <-]. apply Forall_fmap, list.Forall_forall.
  intros ring Hring. unfold MaskShape.spec_surviving in Hring.
  apply list_elem_of_filter in Hring as [Hlen _].
  by apply PolygonFacts.spec_polygon_fields.
Qed.

Lemma X16_witness :
  Forall (λ shape,
            Shape.shape_type shape = "polygon"%string
            ∧ Shape.label shape = Some "cell"%string
            ∧ Shape.group_id shape = None
            ∧ Shape.flags shape = None
            ∧ Shape.description shape = None
            ∧ Shape.other_data shape = []
            ∧ Shape.fill shape = false
            ∧ Shape.selected shape = false
            ∧ Shape.line_color shape = None
            ∧ (1 ≤ length (Shape.points shape))%nat)
         (MaskShape.spec_polygon Examples.mask1
            <$> [MaskShape.spec_ring Examples.keep_all Examples.mask1 (Z2Qc 1)
                   ([(0, 0); (0, 19); (19, 19); (19, 0)], [])]).
Proof.
  assert (Hscale : MaskShape.scale Examples.mask1 ≠ Z2Qc 0).
  { apply (bool_decide_unpack _). vm_compute. exact I. }
  apply (X16_polygons_inherit_fields _ Examples.keep_all Examples.mask1
           [[(0, 0); (0, 19); (19, 19); (19, 0)]] [(-1, -1, -1, -1)]
           (Z2Qc 1) 1 _ Hscale).
  rewrite ToPolygonsFacts.toPolygons_toRings. vm_compute. reflexivity.
Defined.

(** X17. For a mask with one outer contour and no hole, [toPolygons]
    returns one polygon when the simplified contour has at least 4 points,
    and nothing when it has fewer: a region simplified to a triangle gives
    no shape. *)
Theorem X17_single_contour_needs_four_points :
  ∀ (ops : PointOps qpoint)
    (approxPolyDP : MaskShape.contour → Qc → bool → MaskShape.contour)
    (self : MaskShape.t) (c : MaskShape.contour) (prev parent : Z)
    (epsilon : Qc) (fuel : nat),
    MaskShape.scale self ≠ Z2Qc 0 →
    let simplified := approxPolyDP c epsilon true in
    ((length simplified < 4)%nat →
       MaskShape.toPolygons (ops:=ops) approxPolyDP self [c]
                            [(-1, prev, -1, parent)] epsilon (S fuel)
       = Some (Ok []))
    ∧ ((4 ≤ length simplified)%nat →
       MaskShape.toPolygons (ops:=ops) approxPolyDP self [c]
                            [(-1, prev, -1, parent)] epsilon (S fuel)
       = Some (Ok [MaskShape.spec_polygon (ops:=ops) self
                     (MaskShape.close_ring (MaskShape.descale self simplified))])).
Proof.
  intros ops approxPolyDP self c prev parent epsilon fuel Hscale simplified.
  subst simplified. rewrite PolygonFacts.toPolygons_single.
  split; intros Hlen; case_bool_decide; (done || lia).
Qed.

Lemma X17_witness :
  MaskShape.toPolygons Examples.keep_all Examples.mask1
                       [[(0, 0); (0, 9); (9, 0)]] [(-1, -1, -1, -1)]
                       (Z2Qc 1) 1
  = Some (Ok []).
Proof.
  assert (Hscale : MaskShape.scale Examples.mask1 ≠ Z2Qc 0).
  { apply (bool_decide_unpack _). vm_compute. exact I. }
  apply (proj1 (X17_single_contour_needs_four_points _ Examples.keep_all
                  Examples.mask1 [(0, 0); (0, 9); (9, 0)] (-1) (-1) (Z2Qc 1)
                  0 Hscale)).
  cbn. lia.
Defined.

(** X18. A shape made by the constructor and filled by clicks holds the
    first click and, in order, the later clicks that [==] tells from it;
    it is closed exactly when [==] took a later click for the first point,
    a click on the first point itself being one, and further clicks never
    open it again. *)
Theorem X18_shape_clicks :
  ∀ (point : Type) (ops : PointOps point)
    label lc kind fl gid desc (s0 : Shape.t point)
    (p0 : point) (clicks : list point),
    Shape.init label lc kind fl gid desc = Ok s0 →
    let self := foldl (λ shape p, Shape.addPoint p shape) s0 (p0 :: clicks) in
    Shape.points self = p0 :: filter (λ q, point_eqb q p0 = false) clicks
    ∧ Shape.isClosed self = existsb (λ q, point_eqb q p0) clicks
    ∧ (p0 ∈ clicks → Shape.isClosed self = true)
    ∧ (∀ more, Shape.isClosed self = true →
         Shape.isClosed (foldl (λ shape p, Shape.addPoint p shape) self more)
         = true).
Proof.
  intros point ops label lc kind fl gid desc s0 p0 clicks Hinit self.
  assert (Hs0 : Shape.points s0 = [] ∧ Shape.closed s0 = false).
  { unfold Shape.init in Hinit.
    destruct (Shape.check_shape_type kind) as [k|e]; [|done].
    cbn in Hinit. by injection Hinit as <-. }
  destruct Hs0 as [Hps Hcl]. subst self. cbn [foldl].
  rewrite ShapeFacts.addPoint_other by (by rewrite Hps). rewrite Hps.
  change ([] ++ [p0]) with [p0].
  destruct (RingFacts.foldl_addPoint p0 clicks []
              (Shape.with_points s0 [p0]) eq_refl) as [Hpoints Hclosed].
  cbn [app Shape.closed Shape.with_points] in Hpoints, Hclosed.
  rewrite Hcl in Hclosed. cbn [orb] in Hclosed.
  unfold Shape.isClosed. rewrite Hpoints, Hclosed.
  split; [done|]. split; [done|]. split.
  - intros Hin. apply existsb_exists. exists p0.
    split; [by apply list_elem_of_In|apply point_eqb_refl].
  - intros more Hin.
    destruct (RingFacts.foldl_addPoint p0 more
                (filter (λ q, point_eqb q p0 = false) clicks)
                (foldl (λ shape p, Shape.addPoint p shape)
                       (Shape.with_points s0 [p0]) clicks) Hpoints)
      as [_ ->].
    by rewrite Hclosed, Hin.
Qed.

Lemma X18_witness :
  let self :=
    foldl (λ shape p, Shape.addPoint p shape) (Examples.blank "polygon" [])
          [Examples.P 0 0; Examples.P 10 0; Examples.P 10 10; Examples.P 0 0] in
  Shape.points self = [Examples.P 0 0; Examples.P 10 0; Examples.P 10 10]
  ∧ Shape.isClosed self = true.
Proof.
  destruct (X18_shape_clicks qpoint _ None None (Some "polygon"%string)
              None None None _ (Examples.P 0 0)
              [Examples.P 10 0; Examples.P 10 10; Examples.P 0 0] eq_refl)
    as (Hpoints & Hclosed & _).
  split; [exact Hpoints|exact Hclosed].
Defined.
